(** * The query service of the sitemap plugin (server/services/query.js)

    A shallow embedding of the query service: the aggregation of the fields
    and relations of a content type's URL patterns, the assembly of the page
    query, and the sitemap / sitemap-cache rows kept through the entity
    service.

    JavaScript values are modelled as the code uses them:
    - an exception is an [Err] of the [result] monad, a normal return an [Ok];
    - [undefined] / [null] is [None], and truthiness is written out;
    - an object probed with [Object.entries] is the list of its entries, in
      enumeration order; an object used as a dictionary is a [gmap];
    - a table of the entity service is a [gmap] from row ids to rows. *)

From Stdlib Require Import ZArith Ascii String.
From stdpp Require Import gmap strings list fin_maps.

Local Open Scope string_scope.
Local Open Scope list_scope.

Set Warnings "-register-all".

(** ** JavaScript values and control *)

Module JS.

Inductive error : Type :=
| TypeError            (* property access on, or entries of, undefined *)
| PatternSyntaxError.  (* raised by the pattern service *)

Inductive result (A : Type) : Type :=
| Ok (a : A)
| Err (e : error).
Global Arguments Ok {A} a.
Global Arguments Err {A} e.

Global Instance result_ret : MRet result := fun A a => Ok a.
Global Instance result_bind : MBind result := fun A B f m =>
  match m with
  | Ok a => f a
  | Err e => Err e
  end.

Global Instance result_fmap : FMap result := fun A B f m =>
  match m with
  | Ok a => Ok (f a)
  | Err e => Err e
  end.

(** [ToBoolean] on a flag that is [undefined] or a boolean. *)
Definition truthy (v : option bool) : bool :=
  match v with
  | Some true => true
  | _ => false
  end.

(** [ToBoolean] on an optional number: [undefined] and [0] are falsy. *)
Definition truthy_num (v : option Z) : bool :=
  match v with
  | Some z => negb (z =? 0)%Z
  | None => false
  end.

(** [a && b]: [a] when [a] is falsy (and [b] is not evaluated), else [b]. *)
Definition and_then (a : option bool) (b : result (option bool))
  : result (option bool) :=
  if truthy a then b else Ok a.

(** [Object.entries(o)]: a [TypeError] on [undefined]. *)
Definition Object_entries {A} (o : option (list (string * A)))
  : result (list (string * A)) :=
  match o with
  | Some entries => Ok entries
  | None => Err TypeError
  end.

(** [new Set(xs)] keeps the first occurrence of each value, in insertion
    order; [[...set]] lists it in that order. *)
Definition Set_add (s : list string) (x : string) : list string :=
  if decide (x ∈ s) then s else s ++ [x].

Definition Set_of (xs : list string) : list string := foldl Set_add [] xs.

Definition spread_Set (xs : list string) : list string := Set_of xs.

End JS.
Import JS.

(** ** The pattern service

    [getService('pattern')] is looked up at run time; the query service only
    relies on its two entry points, either of which may throw. *)

Record PatternService : Type := {
  getFieldsFromPattern :
    string -> bool -> option string -> result (list string);
  getRelationsFromPattern : string -> result (list string);
}.

(** ** Configuration *)

Record LanguageConfig : Type := { pattern : string }.

(** [languages] is [None] when the property is missing from the object. *)
Record ContentTypeConfig : Type := {
  languages : option (list (string * LanguageConfig));
}.

Record RelationEntry : Type := { fields : list string }.

Section Aggregation.

Variable svc : PatternService.

(** The body of the [.map] over the languages: each language's fields are
    pushed onto [acc]. *)
Fixpoint pushFields (entries : list (string * LanguageConfig))
    (topLevel : bool) (relation : option string) (acc : list string)
  : result (list string) :=
  match entries with
  | [] => Ok acc
  | (_, lang) :: rest =>
      fs ← getFieldsFromPattern svc (pattern lang) topLevel relation;
      pushFields rest topLevel relation (acc ++ fs)
  end.

Definition getFieldsFromConfig (contentType : option ContentTypeConfig)
    (topLevel : bool) (isLocalized : option bool) (relation : option string)
  : result (list string) :=
  fields ← match contentType with
           | Some ct =>
               entries ← Object_entries (languages ct);
               pushFields entries topLevel relation []
           | None => Ok []
           end;
  let fields :=
    if topLevel then
      (if truthy isLocalized then fields ++ ["locale"] else fields)
        ++ ["updatedAt"]
    else fields in
  (* Remove duplicates *)
  Ok (spread_Set fields).

(** The inner [relations.map]: every relation gets the fields of the whole
    config, scoped to it. *)
Fixpoint assignRelations (contentType : option ContentTypeConfig)
    (relations : list string) (relationsObject : gmap string RelationEntry)
  : result (gmap string RelationEntry) :=
  match relations with
  | [] => Ok relationsObject
  | relation :: rest =>
      fs ← getFieldsFromConfig contentType false (Some false) (Some relation);
      assignRelations contentType rest
        (<[relation := {| fields := fs |}]> relationsObject)
  end.

Fixpoint eachLanguage (contentType : option ContentTypeConfig)
    (entries : list (string * LanguageConfig))
    (relationsObject : gmap string RelationEntry)
  : result (gmap string RelationEntry) :=
  match entries with
  | [] => Ok relationsObject
  | (_, lang) :: rest =>
      relations ← getRelationsFromPattern svc (pattern lang);
      relationsObject ← assignRelations contentType relations relationsObject;
      eachLanguage contentType rest relationsObject
  end.

Definition getRelationsFromConfig (contentType : option ContentTypeConfig)
  : result (gmap string RelationEntry) :=
  match contentType with
  | Some ct =>
      entries ← Object_entries (languages ct);
      eachLanguage contentType entries ∅
  | None => Ok ∅
  end.

End Aggregation.

(** ** The page query *)

(** Attribute values of a page, as far as the filters look at them. *)
Inductive value : Type :=
| VNull
| VBool (b : bool)
| VNum (n : Z)
| VStr (s : string).

Global Instance value_eq_dec : EqDecision value.
Proof. solve_decision. Defined.

(** The operators the query uses: [{ $null: b }], [{ $eq: v }],
    [{ $notNull: b }]. *)
Inductive operator : Type :=
| op_null (b : bool)
| op_eq (v : value)
| op_notNull (b : bool).

(** One key of a filter object: an attribute with its object of operators
    ([{}] is the empty list), or [$or] with its array of filter objects.  A
    filter object is the list of its keys. *)
Inductive clause : Type :=
| Attr (name : string) (ops : list operator)
| Or (alternatives : list (list clause)).

Record PopulateEntry : Type := {
  populate_fields : list string;
  populate_populate : option (gmap string RelationEntry);
}.

(** The object handed to [noLimit]. *)
Record FetchSpec : Type := {
  q_where : list clause;
  q_filters : list clause;
  q_locale : string;
  q_fields : list string;
  q_populate : gmap string PopulateEntry;
  q_orderBy : string;
}.

(** The entries of [strapi.contentTypes] and of the plugin config; a missing
    property is [None]. *)
Record Options : Type := { draftAndPublish : option bool }.
Record I18nOptions : Type := { localized : option bool }.
Record PluginOptions : Type := { i18n : option I18nOptions }.
Record ContentType : Type := {
  options : option Options;
  pluginOptions : option PluginOptions;
}.
Record Strapi : Type := { strapi_contentTypes : gmap string ContentType }.

Record Config : Type := {
  excludeDrafts : option bool;
  contentTypes : gmap string ContentTypeConfig;
}.

(** Reading a property of [o]: a [TypeError] when [o] is [undefined]. *)
Definition member {A} (o : option A) : result A :=
  match o with
  | Some a => Ok a
  | None => Err TypeError
  end.

(** A relation spread into [populate]: the same [{ fields }] object. *)
Definition spread_relation (r : RelationEntry) : PopulateEntry :=
  {| populate_fields := fields r; populate_populate := None |}.

Definition build_filters (id : option Z) (excludeDrafts : option bool)
  : list clause :=
  [ Or [ [Attr "sitemap_exclude" [op_null true]];
         [Attr "sitemap_exclude" [op_eq (VBool false)]] ];
    Attr "id" (match id with
               | Some n => if truthy_num id then [op_eq (VNum n)] else []
               | None => []
               end);
    Attr "published_at" (if truthy excludeDrafts then [op_notNull true] else []) ].

(** [{ localizations: {...}, ...relations }]: a later key replaces an
    earlier one of the same name. *)
Definition build_populate (flds : list string)
    (relations : gmap string RelationEntry) : gmap string PopulateEntry :=
  (spread_relation <$> relations)
    ∪ {[ "localizations" :=
           {| populate_fields := flds; populate_populate := Some relations |} ]}.

Section Pages.

Variable svc : PatternService.
Variable strapi : Strapi.

(** Everything [getPages] does before the call of [noLimit]: the object
    passed to it. *)
Definition getPagesQuery (config : Config) (contentType : string)
    (id : option Z) : result FetchSpec :=
  excludeDrafts ← and_then (excludeDrafts config)
    (ct ← member (strapi_contentTypes strapi !! contentType);
     opts ← member (options ct);
     Ok (draftAndPublish opts));
  isLocalized ←
    (ct ← member (strapi_contentTypes strapi !! contentType);
     Ok ((pluginOptions ct ≫= i18n) ≫= localized));
  relations ← getRelationsFromConfig svc (contentTypes config !! contentType);
  fields ← getFieldsFromConfig svc (contentTypes config !! contentType)
             true isLocalized None;
  let filters := build_filters id excludeDrafts in
  Ok {| q_where := filters;
        q_filters := filters;
        q_locale := "all";
        q_fields := fields;
        q_populate := build_populate fields relations;
        q_orderBy := "id" |}.

Variable Page : Type.
Variable noLimit : Strapi -> string -> FetchSpec -> result (list Page).

Definition getPages (config : Config) (contentType : string)
    (id : option Z) : result (list Page) :=
  q ← getPagesQuery config contentType id;
  noLimit strapi contentType q.

End Pages.

(** *** What a filter object asks of a page

    The query engine reads a filter object as the conjunction of its keys,
    an object of operators as the conjunction of its operators, and [$or] as
    the disjunction of its array.  An attribute the page lacks reads as
    [null]. *)

Definition attribute (page : gmap string value) (name : string) : value :=
  default VNull (page !! name).

Definition is_null (v : value) : bool :=
  match v with VNull => true | _ => false end.

Definition operator_holds (v : value) (op : operator) : bool :=
  match op with
  | op_null b => bool_decide (is_null v = b)
  | op_eq w => bool_decide (v = w)
  | op_notNull b => bool_decide (negb (is_null v) = b)
  end.

Fixpoint clause_holds (page : gmap string value) (c : clause) : bool :=
  match c with
  | Attr name ops => forallb (operator_holds (attribute page name)) ops
  | Or alternatives =>
      existsb (fun obj => forallb (clause_holds page) obj) alternatives
  end.

Definition filter_holds (page : gmap string value) (f : list clause) : bool :=
  forallb (clause_holds page) f.

(** ** Sitemaps and sitemap caches in the entity service *)

Record SitemapRow : Type := {
  sitemap_string : string;
  sitemap_name : string;
  sitemap_delta : Z;
}.

Record SitemapCacheRow : Type := {
  sitemap_json : string;
  cache_name : string;
}.

(** The two tables, ['plugin::sitemap.sitemap'] and
    ['plugin::sitemap.sitemap-cache'], each from row id to row. *)
Record Store : Type := {
  sitemaps : gmap positive SitemapRow;
  caches : gmap positive SitemapCacheRow;
}.

(** An [async] function of the service: it runs against the store and
    leaves a store behind. *)
Definition Async (A : Type) : Type := Store -> A * Store.

Global Instance async_ret : MRet Async := fun A a s => (a, s).
Global Instance async_bind : MBind Async := fun A B f m s =>
  let '(a, s') := m s in f a s'.

Definition exec {A} (m : Async A) (s : Store) : Store := (m s).2.
Definition eval {A} (m : Async A) (s : Store) : A := (m s).1.

(** The entity service, one table at a time.  [findMany] returns the rows
    the filters select, in the engine's order; [create] picks an unused
    id; [update] and [delete] do nothing to an id that is not there. *)
Module entityService.
Section Table.
Context {Row : Type}.

Definition findMany (selects : Row -> bool) (t : gmap positive Row)
  : list (positive * Row) :=
  filter (fun r => selects r.2 = true) (map_to_list t).

Definition delete (id : positive) (t : gmap positive Row)
  : gmap positive Row := base.delete id t.

Definition create (data : Row) (t : gmap positive Row)
  : gmap positive Row := <[fresh (dom t) := data]> t.

Definition update (id : positive) (data : Row) (t : gmap positive Row)
  : gmap positive Row := alter (fun _ => data) id t.
End Table.
End entityService.

Definition sitemap_findMany (selects : SitemapRow -> bool)
  : Async (list (positive * SitemapRow)) :=
  fun s => (entityService.findMany selects (sitemaps s), s).

Definition sitemap_delete (id : positive) : Async unit :=
  fun s => (tt, {| sitemaps := entityService.delete id (sitemaps s);
                   caches := caches s |}).

Definition sitemap_create (data : SitemapRow) : Async unit :=
  fun s => (tt, {| sitemaps := entityService.create data (sitemaps s);
                   caches := caches s |}).

Definition cache_findMany (selects : SitemapCacheRow -> bool)
  : Async (list (positive * SitemapCacheRow)) :=
  fun s => (entityService.findMany selects (caches s), s).

Definition cache_delete (id : positive) : Async unit :=
  fun s => (tt, {| sitemaps := sitemaps s;
                   caches := entityService.delete id (caches s) |}).

Definition cache_create (data : SitemapCacheRow) : Async unit :=
  fun s => (tt, {| sitemaps := sitemaps s;
                   caches := entityService.create data (caches s) |}).

Definition cache_update (id : positive) (data : SitemapCacheRow) : Async unit :=
  fun s => (tt, {| sitemaps := sitemaps s;
                   caches := entityService.update id data (caches s) |}).

(** The filters [{ name, delta }] and [{ name }]. *)
Definition by_name_delta (name : string) (delta : Z) (r : SitemapRow) : bool :=
  bool_decide (sitemap_name r = name) && bool_decide (sitemap_delta r = delta).

Definition by_name (name : string) (r : SitemapRow) : bool :=
  bool_decide (sitemap_name r = name).

Definition cache_by_name (name : string) (r : SitemapCacheRow) : bool :=
  bool_decide (cache_name r = name).

Definition createSitemap (sitemapString name : string) (delta : Z)
  : Async unit :=
  sitemap ← sitemap_findMany (by_name_delta name delta);
  match head sitemap with
  | Some (id, _) => sitemap_delete id
  | None => mret tt
  end;;
  sitemap_create {| sitemap_string := sitemapString;
                    sitemap_name := name;
                    sitemap_delta := delta |}.

Definition getSitemap (name : string) (delta : Z)
  : Async (option (positive * SitemapRow)) :=
  sitemap ← sitemap_findMany (by_name_delta name delta);
  mret (head sitemap).

(** [Promise.all] over the deletions, one per row found. *)
Fixpoint delete_all (found : list (positive * SitemapRow)) : Async unit :=
  match found with
  | [] => mret tt
  | (id, _) :: rest => sitemap_delete id;; delete_all rest
  end.

Definition deleteSitemap (name : string) : Async unit :=
  sitemaps ← sitemap_findMany (by_name name);
  delete_all sitemaps.

Definition createSitemapCache (sitemapJson name : string) : Async unit :=
  sitemap ← cache_findMany (cache_by_name name);
  match head sitemap with
  | Some (id, _) => cache_delete id
  | None => mret tt
  end;;
  cache_create {| sitemap_json := sitemapJson; cache_name := name |}.

Definition updateSitemapCache (sitemapJson name : string) : Async unit :=
  sitemap ← cache_findMany (cache_by_name name);
  match head sitemap with
  | Some (id, _) =>
      cache_update id {| sitemap_json := sitemapJson; cache_name := name |}
  | None => mret tt
  end.

Definition getSitemapCache (name : string)
  : Async (option (positive * SitemapCacheRow)) :=
  sitemap ← cache_findMany (cache_by_name name);
  mret (head sitemap).

(** How many rows of a table a filter selects. *)
Definition count_rows {Row} (selects : Row -> bool) (t : gmap positive Row)
  : nat := length (entityService.findMany selects t).

(** ** A pattern service

    The pattern service ([getFieldsFromPattern], [getRelationsFromPattern])
    lives in another file of the plugin.  The properties below hold for any
    pattern service; this one, which follows the specification's parser and
    extractor, is what the sample configurations are run with. *)

Module PatternSpec.

(** Modelled from the spec: the parser's scan for placeholders.  The
    placeholders of a pattern, left to right, are the text between each
    ["["] and the next ["]"]; [tok] is the placeholder being read, if any.
    A bracket that is not matched is a syntax error. *)
Fixpoint placeholders (s : string) (tok : option string)
  : result (list string) :=
  match s, tok with
  | EmptyString, None => Ok []
  | EmptyString, Some _ => Err PatternSyntaxError
  | String c rest, None =>
      if Ascii.eqb c "[" then placeholders rest (Some "")
      else if Ascii.eqb c "]" then Err PatternSyntaxError
      else placeholders rest None
  | String c rest, Some t =>
      if Ascii.eqb c "]" then ts ← placeholders rest None; Ok (t :: ts)
      else if Ascii.eqb c "[" then Err PatternSyntaxError
      else placeholders rest (Some (t +:+ String c ""))
  end.

(** Modelled from the spec: a placeholder split on ["."] into its path
    segments; [cur] is the segment being read. *)
Fixpoint segments (s : string) (cur : string) : list string :=
  match s with
  | EmptyString => [cur]
  | String c rest =>
      if Ascii.eqb c "." then cur :: segments rest ""
      else segments rest (cur +:+ String c "")
  end.

(** Modelled from the spec: the remainder of a token, re-joined. *)
Definition join_dots (segs : list string) : string :=
  match segs with
  | [] => ""
  | s :: rest => foldl (fun acc x => acc +:+ "." +:+ x) s rest
  end.

(** Modelled from the spec: a path token.  One with an empty segment
    (["[category.]"], ["[]"]) is incomplete, a syntax error. *)
Definition token (placeholder : string) : result (list string) :=
  let segs := segments placeholder "" in
  if bool_decide ("" ∈ segs) then Err PatternSyntaxError else Ok segs.

(** Modelled from the spec: the tokens of the placeholders, in order. *)
Fixpoint tokens (ps : list string) : result (list (list string)) :=
  match ps with
  | [] => Ok []
  | p :: rest => t ← token p; ts ← tokens rest; Ok (t :: ts)
  end.

(** Modelled from the spec: [parse], the ordered path tokens of a pattern,
    duplicates included. *)
Definition parse (pattern : string) : result (list (list string)) :=
  ps ← placeholders pattern None; tokens ps.

(** Modelled from the spec: the fields one token contributes to
    [fieldsFromPattern].  A one-segment token is a top-level field, left out
    when a relation filter is set; a longer token names a relation and a
    field within it, and contributes that field when the filter is its
    relation, or the whole path when there is no filter and not only
    top-level fields are asked for. *)
Definition token_fields (topLevelOnly : bool) (relationFilter : option string)
    (tok : list string) : list string :=
  match tok with
  | [] => []
  | [field] =>
      match relationFilter with
      | Some _ => []
      | None => [field]
      end
  | relation :: rest =>
      match relationFilter with
      | Some r => if bool_decide (r = relation) then [join_dots rest] else []
      | None => if topLevelOnly then [] else [join_dots tok]
      end
  end.

(** Modelled from the spec: the relation a token names, if it has one. *)
Definition token_relation (tok : list string) : list string :=
  match tok with
  | relation :: _ :: _ => [relation]
  | _ => []
  end.

(** Modelled from the spec: [fieldsFromPattern] of the extractor. *)
Definition fieldsFromPattern (pattern : string) (topLevelOnly : bool)
    (relationFilter : option string) : result (list string) :=
  toks ← parse pattern;
  Ok (concat (map (token_fields topLevelOnly relationFilter) toks)).

(** Modelled from the spec: [relationsFromPattern] of the extractor, the
    first segments of the dotted tokens, each once. *)
Definition relationsFromPattern (pattern : string) : result (list string) :=
  toks ← parse pattern;
  Ok (Set_of (concat (map token_relation toks))).

(** Modelled from the spec: the pattern service, made of the two. *)
Definition service : PatternService :=
  {| getFieldsFromPattern := fieldsFromPattern;
     getRelationsFromPattern := relationsFromPattern |}.

End PatternSpec.

(** The configuration of the specification's example. *)
Definition example_config : ContentTypeConfig :=
  {| languages := Some
       [ ("en", {| pattern := "/posts/[title]" |});
         ("fr", {| pattern := "/articles/[titre]/[category.name]" |}) ] |}.


(** A content type whose pattern names the [locale] field itself. *)
Definition locale_config : ContentTypeConfig :=
  {| languages := Some [ ("en", {| pattern := "/[locale]/[slug]" |}) ] |}.

(** Two languages whose patterns name the same field. *)
Definition shared_field_config : ContentTypeConfig :=
  {| languages := Some
       [ ("en", {| pattern := "/pages/[slug]" |});
         ("nl", {| pattern := "/paginas/[slug]" |}) ] |}.

(** Two languages that reach into the same relation for different fields;
    only one of them reaches into [author]. *)
Definition relation_config : ContentTypeConfig :=
  {| languages := Some
       [ ("en", {| pattern := "/posts/[category.slug]/[title]" |});
         ("fr", {| pattern := "/articles/[category.name]/[author.name]" |}) ] |}.

Definition relation_config_relations : gmap string RelationEntry :=
  <["author" := {| fields := ["name"] |}]>
    (<["category" := {| fields := ["slug"; "name"] |}]> ∅).

(** A configuration whose second pattern leaves a bracket open. *)
Definition malformed_config : ContentTypeConfig :=
  {| languages := Some
       [ ("en", {| pattern := "/pages/[slug]" |});
         ("nl", {| pattern := "/paginas/[slug" |});
         ("fr", {| pattern := "/pages/[titre]" |}) ] |}.

(** A content type object without the [languages] property. *)
Definition bare_config : ContentTypeConfig := {| languages := None |}.

(** ** Reading the aggregation *)

(** Some language's pattern yields the field [f] under the given scope. *)
Definition pattern_yields (svc : PatternService)
    (contentType : option ContentTypeConfig) (topLevel : bool)
    (relation : option string) (f : string) : Prop :=
  exists ct entries lang cfg fs,
    contentType = Some ct /\ languages ct = Some entries /\
    (lang, cfg) ∈ entries /\
    getFieldsFromPattern svc (pattern cfg) topLevel relation = Ok fs /\
    f ∈ fs.

(** Some language's pattern holds a token of the relation [r]. *)
Definition pattern_relates (svc : PatternService)
    (contentType : option ContentTypeConfig) (r : string) : Prop :=
  exists ct entries lang cfg rs,
    contentType = Some ct /\ languages ct = Some entries /\
    (lang, cfg) ∈ entries /\
    getRelationsFromPattern svc (pattern cfg) = Ok rs /\
    r ∈ rs.

(** What [getRelationsFromConfig] stores under the relation [r]: the
    fields of the whole config, scoped to [r]. *)
Definition scoped (svc : PatternService)
    (contentType : option ContentTypeConfig) (r : string) (e : RelationEntry)
  : Prop :=
  getFieldsFromConfig svc contentType false (Some false) (Some r)
    = Ok (fields e).

(** The fields added at the top level, after the pattern fields. *)
Definition appended (topLevel : bool) (isLocalized : option bool)
  : list string :=
  if topLevel then
    (if truthy isLocalized then ["locale"] else []) ++ ["updatedAt"]
  else [].

(** The pattern service returns for the pattern of the language [entry]. *)
Definition extraction_returns (svc : PatternService) (topLevel : bool)
    (relation : option string) (entry : string * LanguageConfig) : Prop :=
  exists l, getFieldsFromPattern svc (pattern entry.2) topLevel relation = Ok l.

(** ** Reading the page query *)

(** [pluginOptions?.i18n?.localized]. *)
Definition isLocalizedOf (meta : ContentType) : option bool :=
  (pluginOptions meta ≫= i18n) ≫= localized.

(** The content type is there and its [draftAndPublish] option is on. *)
Definition supportsDraftAndPublish (strapi : Strapi) (contentType : string)
  : bool :=
  match strapi_contentTypes strapi !! contentType with
  | Some meta => truthy (options meta ≫= draftAndPublish)
  | None => false
  end.

(** Draft exclusion is configured and the content type supports drafts. *)
Definition draftsExcluded (strapi : Strapi) (config : Config)
    (contentType : string) : bool :=
  truthy (excludeDrafts config) && supportsDraftAndPublish strapi contentType.

(** The same metadata with every flag written out, a missing one as
    [false]. *)
Definition explicit_flags (meta : ContentType) : ContentType :=
  {| options :=
       Some {| draftAndPublish :=
                 Some (truthy (options meta ≫= draftAndPublish)) |};
     pluginOptions :=
       Some {| i18n :=
                 Some {| localized := Some (truthy (isLocalizedOf meta)) |} |} |}.

Definition with_explicit_flags (strapi : Strapi) (contentType : string)
    (meta : ContentType) : Strapi :=
  {| strapi_contentTypes :=
       <[contentType := explicit_flags meta]> (strapi_contentTypes strapi) |}.

(** *** Sample content types and pages *)

Definition page_uid : string := "api::page.page".

(** A content type with drafts and no plugin options. *)
Definition strapi_pages : Strapi :=
  {| strapi_contentTypes :=
       {[ page_uid := {| options := Some {| draftAndPublish := Some true |};
                         pluginOptions := None |} ]} |}.

(** A content type whose [options] lack [draftAndPublish] and whose plugin
    options lack [i18n]. *)
Definition strapi_flagless : Strapi :=
  {| strapi_contentTypes :=
       {[ page_uid := {| options := Some {| draftAndPublish := None |};
                         pluginOptions := Some {| i18n := None |} |} ]} |}.

(** A content type whose schema has no [options] at all. *)
Definition strapi_no_options : Strapi :=
  {| strapi_contentTypes :=
       {[ page_uid := {| options := None; pluginOptions := None |} ]} |}.

Definition config_pages : Config :=
  {| excludeDrafts := Some true;
     contentTypes := {[ page_uid := shared_field_config ]} |}.

Definition config_relations : Config :=
  {| excludeDrafts := Some true;
     contentTypes := {[ page_uid := relation_config ]} |}.

(** A sitemap configuration without content types. *)
Definition config_empty : Config :=
  {| excludeDrafts := Some true; contentTypes := ∅ |}.

(** A pattern that reaches into the [localizations] relation. *)
Definition localizations_config : ContentTypeConfig :=
  {| languages := Some
       [ ("en", {| pattern := "/[slug]/[localizations.slug]" |}) ] |}.

Definition config_localizations : Config :=
  {| excludeDrafts := None;
     contentTypes := {[ page_uid := localizations_config ]} |}.

Definition page_seven : gmap string value :=
  {[ "id" := VNum 7; "published_at" := VStr "2024-01-01" ]}.

(** A published page that is excluded from the sitemap. *)
Definition page_excluded : gmap string value :=
  {[ "id" := VNum 3; "sitemap_exclude" := VBool true;
     "published_at" := VStr "2024-01-01" ]}.

(** ** Reading the store *)

(** Delete-if-found, then create: what both create operations do to their
    table. *)
Definition replace_row {Row} (selects : Row -> bool) (data : Row)
    (t : gmap positive Row) : gmap positive Row :=
  entityService.create data
    (match head (entityService.findMany selects t) with
     | Some (id, _) => entityService.delete id t
     | None => t
     end).

(** A store in which two cache rows share a name, and one in which two
    sitemap rows share a name and a delta. *)
Definition store_two_caches : Store :=
  {| sitemaps := ∅;
     caches := {[ 1%positive := {| sitemap_json := "{}"; cache_name := "default" |};
                  2%positive := {| sitemap_json := "[]"; cache_name := "default" |} ]} |}.

Definition store_two_sitemaps : Store :=
  {| sitemaps :=
       {[ 1%positive := {| sitemap_string := "<a/>"; sitemap_name := "default";
                           sitemap_delta := 0 |};
          2%positive := {| sitemap_string := "<b/>"; sitemap_name := "default";
                           sitemap_delta := 0 |} ]};
     caches := ∅ |}.

(** A store with the sitemap [default] in two parts, another sitemap, and
    one cache. *)
Definition store_sample : Store :=
  {| sitemaps :=
       {[ 1%positive := {| sitemap_string := "<a/>"; sitemap_name := "default";
                           sitemap_delta := 0 |};
          2%positive := {| sitemap_string := "<b/>"; sitemap_name := "default";
                           sitemap_delta := 1 |};
          3%positive := {| sitemap_string := "<c/>"; sitemap_name := "news";
                           sitemap_delta := 0 |} ]};
     caches := {[ 1%positive := {| sitemap_json := "{}"; cache_name := "default" |} ]} |}.

(** * Properties *)

(** ** Sets *)

Lemma Set_add_NoDup s x : NoDup s -> NoDup (Set_add s x).
Proof.
  intros Hs. unfold Set_add. case_decide as Hin; [done|].
  apply NoDup_app. split_and!; [done| |apply NoDup_singleton].
  intros y Hy Hy'. apply list_elem_of_singleton in Hy'. by subst.
Qed.

Lemma elem_of_Set_add s x y : y ∈ Set_add s x <-> y ∈ s \/ y = x.
Proof.
  unfold Set_add. case_decide as Hin.
  - split; [by left|]. intros [?| ->]; done.
  - rewrite elem_of_app, list_elem_of_singleton. done.
Qed.

Lemma foldl_Set_add_NoDup xs s : NoDup s -> NoDup (foldl Set_add s xs).
Proof.
  revert s. induction xs as [|x xs IH]; intros s Hs; simpl; [done|].
  by apply IH, Set_add_NoDup.
Qed.

Lemma elem_of_foldl_Set_add xs s y :
  y ∈ foldl Set_add s xs <-> y ∈ s \/ y ∈ xs.
Proof.
  revert s. induction xs as [|x xs IH]; intros s; simpl.
  - rewrite elem_of_nil. tauto.
  - rewrite IH, elem_of_Set_add, elem_of_cons. tauto.
Qed.

Lemma spread_Set_NoDup xs : NoDup (spread_Set xs).
Proof. apply foldl_Set_add_NoDup, NoDup_nil_2. Qed.

Lemma elem_of_spread_Set xs y : y ∈ spread_Set xs <-> y ∈ xs.
Proof.
  unfold spread_Set, Set_of. rewrite elem_of_foldl_Set_add, elem_of_nil. tauto.
Qed.

(** ** The result monad *)

Lemma bind_Ok {A B} (m : result A) (f : A -> result B) b :
  m ≫= f = Ok b <-> exists a, m = Ok a /\ f a = Ok b.
Proof.
  destruct m as [a|e]; simpl; split.
  - intros H. by exists a.
  - by intros (a' & [= <-] & H).
  - done.
  - by intros (a' & [=] & _).
Qed.

Lemma bind_Err {A B} (m : result A) (f : A -> result B) e :
  m ≫= f = Err e <-> m = Err e \/ exists a, m = Ok a /\ f a = Err e.
Proof.
  destruct m as [a|e']; simpl; split.
  - intros H. right. by exists a.
  - intros [[=]|(a' & [= <-] & H)]. done.
  - intros [= ->]. by left.
  - intros [[= ->]|(a' & [=] & _)]. done.
Qed.

(** ** Aggregation over the languages *)

Section AggregationFacts.

Variable svc : PatternService.

Lemma pushFields_Ok entries topLevel relation acc fs :
  pushFields svc entries topLevel relation acc = Ok fs ->
  exists collected,
    fs = acc ++ collected /\
    forall f, f ∈ collected <->
      exists lang cfg l,
        (lang, cfg) ∈ entries /\
        getFieldsFromPattern svc (pattern cfg) topLevel relation = Ok l /\
        f ∈ l.
Proof.
  revert acc fs.
  induction entries as [|[lang cfg] rest IH]; intros acc fs H; simpl in H.
  - injection H as <-. exists []. split; [by rewrite app_nil_r|].
    intros f. split; [by intros ?%elem_of_nil|].
    by intros (? & ? & ? & ?%elem_of_nil & _).
  - apply bind_Ok in H as (l & Hl & H).
    destruct (IH _ _ H) as (collected & -> & Hc).
    exists (l ++ collected). split; [by rewrite app_assoc|].
    intros f. rewrite elem_of_app, Hc. split.
    + intros [Hf|(lang' & cfg' & l' & Hin & Hl' & Hf)].
      * exists lang, cfg, l. split_and!; [left|done|done].
      * exists lang', cfg', l'. split_and!; [by right|done|done].
    + intros (lang' & cfg' & l' & Hin & Hl' & Hf).
      apply elem_of_cons in Hin as [[= -> ->]|Hin].
      * left. congruence.
      * right. by exists lang', cfg', l'.
Qed.

Lemma getFieldsFromConfig_Ok contentType topLevel isLocalized relation fs :
  getFieldsFromConfig svc contentType topLevel isLocalized relation = Ok fs ->
  exists collected,
    (forall f, f ∈ collected <->
       pattern_yields svc contentType topLevel relation f) /\
    fs = spread_Set (collected ++ appended topLevel isLocalized).
Proof.
  unfold getFieldsFromConfig. intros H.
  apply bind_Ok in H as (collected & Hc & H). injection H as <-.
  exists collected. split.
  - destruct contentType as [ct|].
    + apply bind_Ok in Hc as (entries & He & Hc).
      destruct (languages ct) as [entries'|] eqn:Hl; [|done].
      injection He as ->.
      apply pushFields_Ok in Hc as (c & -> & Hc). simpl.
      intros f. rewrite Hc. unfold pattern_yields. split.
      * intros (lang & cfg & l & ? & ? & ?).
        by exists ct, entries, lang, cfg, l.
      * intros (ct' & entries' & lang & cfg & l & [= <-] & He & ? & ? & ?).
        rewrite Hl in He. injection He as <-. by exists lang, cfg, l.
    + injection Hc as <-. intros f. split; [by intros ?%elem_of_nil|].
      by intros (? & ? & ? & ? & ? & [=] & _).
  - unfold appended. f_equal.
    destruct topLevel; [|by rewrite app_nil_r].
    destruct (truthy isLocalized); [by rewrite <-app_assoc|done].
Qed.

End AggregationFacts.

(** ** Fields of a content type *)

(** The specification's example: two languages, one relation. *)
Example example_config_fields :
  getFieldsFromConfig PatternSpec.service (Some example_config) true
    (Some true) None = Ok ["title"; "titre"; "locale"; "updatedAt"].
Proof. reflexivity. Qed.

Example example_config_relations :
  map_to_list <$> getRelationsFromConfig PatternSpec.service
                    (Some example_config)
    = Ok [("category", {| fields := ["name"] |})].
Proof. vm_compute. reflexivity. Qed.

(** C1 (as amended).  At the top level the returned fields are the
    deduplicated sequence of the pattern fields of all languages, then
    ["locale"] when [isLocalized] is truthy, then ["updatedAt"].  So
    ["updatedAt"] is always among them, ["locale"] is among them whenever
    [isLocalized] is truthy, and when it is not, ["locale"] is among them
    exactly when some language's pattern yields it. *)
Theorem getFieldsFromConfig_topLevel_appends
    svc contentType isLocalized relation fs :
  getFieldsFromConfig svc contentType true isLocalized relation = Ok fs ->
  "updatedAt" ∈ fs /\
  (truthy isLocalized = true -> "locale" ∈ fs) /\
  (truthy isLocalized = false ->
     ("locale" ∈ fs <-> pattern_yields svc contentType true relation "locale")) /\
  exists collected,
    (forall f, f ∈ collected <->
       pattern_yields svc contentType true relation f) /\
    fs = spread_Set
           (collected ++ (if truthy isLocalized then ["locale"] else [])
              ++ ["updatedAt"]).
Proof.
  intros H. apply getFieldsFromConfig_Ok in H as (collected & Hc & ->).
  unfold appended. split_and!.
  - rewrite elem_of_spread_Set, !elem_of_app, list_elem_of_singleton. tauto.
  - intros ->. rewrite elem_of_spread_Set, !elem_of_app, list_elem_of_singleton.
    tauto.
  - intros ->. rewrite elem_of_spread_Set, !elem_of_app, <-Hc.
    rewrite elem_of_nil, list_elem_of_singleton. split; [|tauto].
    intros [?|[[]|[=]]]. done.
  - by exists collected.
Qed.

Lemma getFieldsFromConfig_topLevel_appends_witness :
  getFieldsFromConfig PatternSpec.service (Some example_config) true
    (Some true) None = Ok ["title"; "titre"; "locale"; "updatedAt"] /\
  "updatedAt" ∈ ["title"; "titre"; "locale"; "updatedAt"].
Proof.
  split; [reflexivity|].
  exact (proj1 (getFieldsFromConfig_topLevel_appends PatternSpec.service
                  (Some example_config) (Some true) None _ eq_refl)).
Defined.

(** C1 (as stated) fails: a pattern that names the [locale] field puts
    ["locale"] among the fields of a type that is not localized. *)
Lemma getFieldsFromConfig_locale_not_localized :
  getFieldsFromConfig PatternSpec.service (Some locale_config) true
    (Some false) None = Ok ["locale"; "slug"; "updatedAt"] /\
  ~ ("locale" ∈ ["locale"; "slug"; "updatedAt"] <->
     truthy (Some false) = true).
Proof.
  split; [reflexivity|]. intros [H _]. discriminate H. apply elem_of_cons. by left.
Qed.

(** C2.  The fields returned never hold a value twice. *)
Theorem getFieldsFromConfig_NoDup
    svc contentType topLevel isLocalized relation fs :
  getFieldsFromConfig svc contentType topLevel isLocalized relation = Ok fs ->
  NoDup fs.
Proof.
  intros H. apply getFieldsFromConfig_Ok in H as (collected & _ & ->).
  apply spread_Set_NoDup.
Qed.

Lemma getFieldsFromConfig_NoDup_witness :
  getFieldsFromConfig PatternSpec.service (Some shared_field_config) true
    (Some true) None = Ok ["slug"; "locale"; "updatedAt"] /\
  NoDup ["slug"; "locale"; "updatedAt"].
Proof.
  split; [reflexivity|].
  exact (getFieldsFromConfig_NoDup PatternSpec.service
           (Some shared_field_config) true (Some true) None _ eq_refl).
Defined.

(** C4 (as amended).  For an absent content type, and for one whose
    [languages] object is empty, no pattern is read and nothing is raised:
    the result holds only the fields appended at the top level, and is
    empty below it. *)
Theorem getFieldsFromConfig_no_languages
    svc contentType topLevel isLocalized relation :
  contentType = None \/
    (exists ct, contentType = Some ct /\ languages ct = Some []) ->
  getFieldsFromConfig svc contentType topLevel isLocalized relation =
    Ok (if topLevel then
          if truthy isLocalized then ["locale"; "updatedAt"] else ["updatedAt"]
        else []).
Proof.
  intros [->|(ct & -> & Hl)]; unfold getFieldsFromConfig; simpl.
  - by destruct topLevel, (truthy isLocalized).
  - rewrite Hl. simpl. by destruct topLevel, (truthy isLocalized).
Qed.

Lemma getFieldsFromConfig_no_languages_witness :
  (@None ContentTypeConfig = None \/
     exists ct, @None ContentTypeConfig = Some ct /\ languages ct = Some []) /\
  getFieldsFromConfig PatternSpec.service None false (Some true) (Some "category")
    = Ok [].
Proof.
  split; [by left|].
  apply (getFieldsFromConfig_no_languages PatternSpec.service None false
           (Some true) (Some "category")). by left.
Defined.

(** C4 (as stated) fails: a content type object without [languages] makes
    [Object.entries] throw. *)
Lemma getFieldsFromConfig_missing_languages :
  languages bare_config = None /\
  getFieldsFromConfig PatternSpec.service (Some bare_config) false None None
    = Err TypeError.
Proof. split; reflexivity. Qed.

(** ** Relations of a content type *)

Section RelationFacts.

Variable svc : PatternService.
Variable contentType : option ContentTypeConfig.

Lemma assignRelations_Ok relations m m' r e :
  assignRelations svc contentType relations m = Ok m' ->
  m' !! r = Some e ->
  m !! r = Some e \/ (r ∈ relations /\ scoped svc contentType r e).
Proof.
  revert m. induction relations as [|x rest IH]; intros m H Hr; simpl in H.
  - injection H as <-. by left.
  - apply bind_Ok in H as (fs & Hfs & H).
    destruct (IH _ H Hr) as [Hm|[Hin Hsc]].
    + destruct (decide (x = r)) as [->|Hne].
      * rewrite lookup_insert_eq in Hm. injection Hm as <-.
        right. split; [left|done].
      * rewrite lookup_insert_ne in Hm by done. by left.
    + right. split; [by right|done].
Qed.

Lemma eachLanguage_Ok entries m m' r e :
  eachLanguage svc contentType entries m = Ok m' ->
  m' !! r = Some e ->
  m !! r = Some e \/
  (scoped svc contentType r e /\
   exists lang cfg rs,
     (lang, cfg) ∈ entries /\
     getRelationsFromPattern svc (pattern cfg) = Ok rs /\ r ∈ rs).
Proof.
  revert m. induction entries as [|[lang cfg] rest IH]; intros m H Hr;
    simpl in H.
  - injection H as <-. by left.
  - apply bind_Ok in H as (rs & Hrs & H).
    apply bind_Ok in H as (m1 & Hm1 & H).
    destruct (IH _ H Hr) as [Hm|(Hsc & lang' & cfg' & rs' & Hin & Hrs' & Hr')].
    + destruct (assignRelations_Ok _ _ _ _ _ Hm1 Hm) as [?|[Hin Hsc]];
        [by left|].
      right. split; [done|]. exists lang, cfg, rs. split_and!; [left|done|done].
    + right. split; [done|]. exists lang', cfg', rs'.
      split_and!; [by right|done|done].
Qed.

End RelationFacts.

(** C3.  Every key of the map returned by [getRelationsFromConfig] is a
    relation that the pattern of some language holds, and the field list
    stored under it is what the scoped extraction over the whole config
    returns: the fields that any language's pattern yields for that
    relation, each once. *)
Theorem getRelationsFromConfig_entry svc contentType relations r e :
  getRelationsFromConfig svc contentType = Ok relations ->
  relations !! r = Some e ->
  getFieldsFromConfig svc contentType false (Some false) (Some r)
    = Ok (fields e) /\
  (forall f, f ∈ fields e <->
     pattern_yields svc contentType false (Some r) f) /\
  NoDup (fields e) /\
  pattern_relates svc contentType r.
Proof.
  intros H Hr. destruct contentType as [ct|]; simpl in H.
  - apply bind_Ok in H as (entries & He & H).
    destruct (languages ct) as [entries'|] eqn:Hl; [|done].
    injection He as ->.
    destruct (eachLanguage_Ok _ _ _ _ _ _ _ H Hr)
      as [Hm|(Hsc & lang & cfg & rs & Hin & Hrs & Hr')].
    { by rewrite lookup_empty in Hm. }
    split; [done|].
    apply getFieldsFromConfig_Ok in Hsc as (collected & Hc & ->).
    split_and!.
    + intros f. unfold appended.
      by rewrite elem_of_spread_Set, app_nil_r.
    + apply spread_Set_NoDup.
    + by exists ct, entries, lang, cfg, rs.
  - injection H as <-. by rewrite lookup_empty in Hr.
Qed.

Lemma getRelationsFromConfig_entry_witness :
  getRelationsFromConfig PatternSpec.service (Some relation_config)
    = Ok relation_config_relations /\
  relation_config_relations !! "category"
    = Some {| fields := ["slug"; "name"] |} /\
  getFieldsFromConfig PatternSpec.service (Some relation_config) false
    (Some false) (Some "category") = Ok ["slug"; "name"].
Proof.
  split; [vm_compute; reflexivity|]. split; [vm_compute; reflexivity|].
  exact (proj1 (getRelationsFromConfig_entry PatternSpec.service
                  (Some relation_config) relation_config_relations
                  "category" {| fields := ["slug"; "name"] |}
                  eq_refl eq_refl)).
Defined.

(** ** The page query *)

Section PageFacts.

Variable svc : PatternService.
Variable strapi : Strapi.
Variable config : Config.
Variable contentType : string.

(** The value of [excludeDrafts] in [getPages], once the metadata is
    there: it is truthy exactly when drafts are excluded. *)
Lemma excludeDrafts_Ok exd :
  and_then (excludeDrafts config)
    (ct ← member (strapi_contentTypes strapi !! contentType);
     opts ← member (options ct);
     Ok (draftAndPublish opts)) = Ok exd ->
  truthy exd = draftsExcluded strapi config contentType.
Proof.
  unfold and_then, draftsExcluded, supportsDraftAndPublish.
  destruct (truthy (excludeDrafts config)) eqn:Hx.
  - intros H. apply bind_Ok in H as (meta & Hm & H).
    apply bind_Ok in H as (opts & Ho & H). injection H as <-.
    destruct (strapi_contentTypes strapi !! contentType); [|done].
    injection Hm as ->. destruct (options meta); [|done].
    by injection Ho as ->.
  - intros [= <-]. by rewrite Hx.
Qed.

Lemma getPagesQuery_Ok id q :
  getPagesQuery svc strapi config contentType id = Ok q ->
  exists meta relations,
    strapi_contentTypes strapi !! contentType = Some meta /\
    getRelationsFromConfig svc (contentTypes config !! contentType)
      = Ok relations /\
    getFieldsFromConfig svc (contentTypes config !! contentType) true
      (isLocalizedOf meta) None = Ok (q_fields q) /\
    q_where q = q_filters q /\
    q_filters q = build_filters id
                    (Some (draftsExcluded strapi config contentType)) /\
    q_locale q = "all" /\
    q_orderBy q = "id" /\
    q_populate q = build_populate (q_fields q) relations.
Proof.
  unfold getPagesQuery. intros H.
  apply bind_Ok in H as (exd & Hexd & H).
  apply excludeDrafts_Ok in Hexd.
  apply bind_Ok in H as (loc & Hloc & H).
  apply bind_Ok in H as (relations & Hrel & H).
  apply bind_Ok in H as (fs & Hfs & H). injection H as <-. simpl.
  apply bind_Ok in Hloc as (meta & Hmeta & Hloc). injection Hloc as <-.
  destruct (strapi_contentTypes strapi !! contentType) as [meta'|] eqn:Hm;
    [|done].
  injection Hmeta as ->.
  exists meta, relations. split_and!; try done.
  unfold build_filters.
  by rewrite Hexd; destruct (draftsExcluded strapi config contentType).
Qed.

End PageFacts.

Lemma is_null_true v : is_null v = true <-> v = VNull.
Proof. by destruct v. Qed.

Lemma not_null_true v : negb (is_null v) = true <-> v <> VNull.
Proof. by destruct v. Qed.

Lemma build_filters_holds page id (excluded : bool) :
  filter_holds page (build_filters id (Some excluded)) = true <->
    (attribute page "sitemap_exclude" = VNull \/
     attribute page "sitemap_exclude" = VBool false) /\
    (forall n, id = Some n -> n <> 0%Z -> attribute page "id" = VNum n) /\
    (excluded = true -> attribute page "published_at" <> VNull).
Proof.
  unfold filter_holds, build_filters. simpl.
  rewrite !andb_true_r, !andb_true_iff, !orb_false_r, orb_true_iff.
  rewrite !bool_decide_eq_true, is_null_true.
  apply and_iff_compat_l.
  etransitivity; [apply and_iff_compat_l|apply and_iff_compat_r].
  - destruct excluded; simpl.
    + rewrite andb_true_r, bool_decide_eq_true, not_null_true. split; auto.
    + by split.
  - destruct id as [n|]; simpl; [|by split].
    destruct (Z.eqb_spec n 0) as [->|Hn]; simpl.
    + split; [|done]. by intros _ ? [= <-].
    + rewrite andb_true_r, bool_decide_eq_true. split.
      * by intros ? ? [= <-].
      * intros H. by apply H.
Qed.

(** C5 (as amended).  The filters of the page query ask that
    [sitemap_exclude] is null or false; that, when an id is passed and is
    not zero, the page's id equals it; and that, when draft exclusion is
    configured and the content type has draft and publish on,
    [published_at] is not null.  They ask nothing else. *)
Theorem getPages_filters svc strapi config contentType id q :
  getPagesQuery svc strapi config contentType id = Ok q ->
  q_where q = q_filters q /\
  forall page,
    filter_holds page (q_filters q) = true <->
      (attribute page "sitemap_exclude" = VNull \/
       attribute page "sitemap_exclude" = VBool false) /\
      (forall n, id = Some n -> n <> 0%Z -> attribute page "id" = VNum n) /\
      (draftsExcluded strapi config contentType = true ->
         attribute page "published_at" <> VNull).
Proof.
  intros H.
  apply getPagesQuery_Ok in H
    as (meta & relations & _ & _ & _ & Hw & Hf & _).
  split; [done|]. intros page. rewrite Hf. apply build_filters_holds.
Qed.

Lemma getPages_filters_witness :
  q_filters <$> getPagesQuery PatternSpec.service strapi_pages config_pages
                  page_uid (Some 42%Z)
    = Ok [ Or [ [Attr "sitemap_exclude" [op_null true]];
                [Attr "sitemap_exclude" [op_eq (VBool false)]] ];
           Attr "id" [op_eq (VNum 42)];
           Attr "published_at" [op_notNull true] ] /\
  exists q,
    getPagesQuery PatternSpec.service strapi_pages config_pages page_uid
      (Some 42%Z) = Ok q /\
    q_where q = q_filters q.
Proof.
  split; [vm_compute; reflexivity|].
  eexists. split; [vm_compute; reflexivity|].
  exact (proj1 (getPages_filters PatternSpec.service strapi_pages config_pages
                  page_uid (Some 42%Z) _ eq_refl)).
Defined.

(** C5 (as stated) fails: the id [0] is passed, and the filters let a page
    through whose id is not [0]. *)
Lemma getPages_filters_id_zero :
  q_filters <$> getPagesQuery PatternSpec.service strapi_pages config_pages
                  page_uid (Some 0%Z)
    = Ok [ Or [ [Attr "sitemap_exclude" [op_null true]];
                [Attr "sitemap_exclude" [op_eq (VBool false)]] ];
           Attr "id" [];
           Attr "published_at" [op_notNull true] ] /\
  filter_holds page_seven
    [ Or [ [Attr "sitemap_exclude" [op_null true]];
           [Attr "sitemap_exclude" [op_eq (VBool false)]] ];
      Attr "id" [];
      Attr "published_at" [op_notNull true] ] = true /\
  attribute page_seven "id" <> VNum 0.
Proof. split_and!; [vm_compute; reflexivity|vm_compute; reflexivity|done]. Qed.

Lemma truthy_idemp v : truthy (Some (truthy v)) = truthy v.
Proof. by destruct v as [[]|]. Qed.

Lemma getFieldsFromConfig_truthy svc contentType topLevel isLocalized relation :
  getFieldsFromConfig svc contentType topLevel isLocalized relation =
  getFieldsFromConfig svc contentType topLevel (Some (truthy isLocalized))
    relation.
Proof. unfold getFieldsFromConfig. by rewrite truthy_idemp. Qed.

Lemma build_filters_truthy id excludeDrafts :
  build_filters id excludeDrafts = build_filters id (Some (truthy excludeDrafts)).
Proof. unfold build_filters. by rewrite truthy_idemp. Qed.

(** With the metadata at hand, [getPages] reads its two flags without
    raising, and goes on with their truth values. *)
Lemma getPagesQuery_flags svc strapi config contentType id meta :
  strapi_contentTypes strapi !! contentType = Some meta ->
  (truthy (excludeDrafts config) = true -> is_Some (options meta)) ->
  getPagesQuery svc strapi config contentType id =
    (relations ← getRelationsFromConfig svc (contentTypes config !! contentType);
     fields ← getFieldsFromConfig svc (contentTypes config !! contentType)
                true (Some (truthy (isLocalizedOf meta))) None;
     let filters :=
       build_filters id (Some (draftsExcluded strapi config contentType)) in
     Ok {| q_where := filters;
           q_filters := filters;
           q_locale := "all";
           q_fields := fields;
           q_populate := build_populate fields relations;
           q_orderBy := "id" |}).
Proof.
  intros Hmeta Hopts.
  unfold getPagesQuery, draftsExcluded, supportsDraftAndPublish, and_then.
  rewrite Hmeta. simpl.
  rewrite (getFieldsFromConfig_truthy _ _ _ (isLocalizedOf meta)).
  destruct (truthy (excludeDrafts config)) eqn:Hx; simpl.
  - destruct Hopts as [opts Hopts]; [done|]. rewrite Hopts. simpl.
    by rewrite (build_filters_truthy _ (draftAndPublish opts)).
  - by rewrite (build_filters_truthy _ (excludeDrafts config)), Hx.
Qed.

(** C6 (as amended).  When the content type's metadata has an [options]
    object (or draft exclusion is not configured), flags that are missing
    from it are read as [false] and reading them raises nothing: the query
    is the one built for the same metadata with every flag written out,
    so without [draftAndPublish] no page is asked to be published and
    without [pluginOptions], [i18n] or [localized] the fields are those of
    a type that is not localized; and an error, if any, comes from the
    aggregation of the patterns. *)
Theorem getPages_missing_flags svc strapi config contentType id meta :
  strapi_contentTypes strapi !! contentType = Some meta ->
  (truthy (excludeDrafts config) = true -> is_Some (options meta)) ->
  getPagesQuery svc strapi config contentType id =
    getPagesQuery svc (with_explicit_flags strapi contentType meta) config
      contentType id /\
  (forall q, getPagesQuery svc strapi config contentType id = Ok q ->
     (options meta ≫= draftAndPublish = None ->
        q_filters q = build_filters id (Some false)) /\
     (isLocalizedOf meta = None ->
        getFieldsFromConfig svc (contentTypes config !! contentType)
          true (Some false) None = Ok (q_fields q))) /\
  (forall e, getPagesQuery svc strapi config contentType id = Err e ->
     getRelationsFromConfig svc (contentTypes config !! contentType) = Err e \/
     getFieldsFromConfig svc (contentTypes config !! contentType)
       true (Some false) None = Err e \/
     getFieldsFromConfig svc (contentTypes config !! contentType)
       true (Some true) None = Err e).
Proof.
  intros Hmeta Hopts. split_and!.
  - rewrite (getPagesQuery_flags _ _ _ _ _ _ Hmeta Hopts).
    rewrite (getPagesQuery_flags _ (with_explicit_flags strapi contentType meta)
               _ _ _ (explicit_flags meta)).
    + unfold draftsExcluded, supportsDraftAndPublish. simpl.
      rewrite lookup_insert_eq, Hmeta. simpl.
      unfold isLocalizedOf.
      by destruct (truthy ((pluginOptions meta ≫= i18n) ≫= localized)),
           (truthy (options meta ≫= draftAndPublish)).
    + simpl. by rewrite lookup_insert_eq.
    + by intros _.
  - intros q Hq. split.
    + intros Hd. apply getPagesQuery_Ok in Hq as (meta' & _ & Hm & _ & _ & _ & Hf & _).
      rewrite Hf. unfold draftsExcluded, supportsDraftAndPublish.
      by rewrite Hmeta, Hd, andb_false_r.
    + intros Hl. apply getPagesQuery_Ok in Hq as (meta' & _ & Hm & _ & Hfs & _).
      rewrite Hmeta in Hm. injection Hm as <-.
      by rewrite getFieldsFromConfig_truthy, Hl in Hfs.
  - intros e He. rewrite (getPagesQuery_flags _ _ _ _ _ _ Hmeta Hopts) in He.
    apply bind_Err in He as [He|(relations & _ & He)]; [by left|].
    apply bind_Err in He as [He|(fs & _ & He)]; [|done].
    right. by destruct (truthy (isLocalizedOf meta)); [right|left].
Qed.

Lemma getPages_missing_flags_witness :
  strapi_contentTypes strapi_flagless !! page_uid
    = Some {| options := Some {| draftAndPublish := None |};
              pluginOptions := Some {| i18n := None |} |} /\
  (truthy (excludeDrafts config_pages) = true ->
   is_Some (Some {| draftAndPublish := None |})) /\
  getPagesQuery PatternSpec.service strapi_flagless config_pages page_uid None =
    getPagesQuery PatternSpec.service
      (with_explicit_flags strapi_flagless page_uid
         {| options := Some {| draftAndPublish := None |};
            pluginOptions := Some {| i18n := None |} |})
      config_pages page_uid None.
Proof.
  split; [reflexivity|]. split; [by eexists|].
  refine (proj1 (getPages_missing_flags PatternSpec.service strapi_flagless
                   config_pages page_uid None _ eq_refl _)).
  by eexists.
Defined.

(** C6 (as stated) fails: draft exclusion is configured, the content type
    has no [options] object and so no [draftAndPublish] flag, and reading
    the flag raises. *)
Lemma getPages_no_options_raises :
  excludeDrafts config_pages = Some true /\
  strapi_contentTypes strapi_no_options !! page_uid
    = Some {| options := None; pluginOptions := None |} /\
  getPagesQuery PatternSpec.service strapi_no_options config_pages page_uid None
    = Err TypeError.
Proof. split_and!; vm_compute; reflexivity. Qed.

Lemma build_populate_relation flds relations r e :
  relations !! r = Some e ->
  build_populate flds relations !! r = Some (spread_relation e).
Proof.
  intros Hr. unfold build_populate.
  apply lookup_union_Some_l. by rewrite lookup_fmap, Hr.
Qed.

Lemma build_populate_localizations flds relations :
  relations !! "localizations" = None ->
  build_populate flds relations !! "localizations" =
    Some {| populate_fields := flds; populate_populate := Some relations |}.
Proof.
  intros Hr. unfold build_populate.
  rewrite lookup_union_r by (by rewrite lookup_fmap, Hr).
  apply lookup_singleton_eq.
Qed.

Lemma build_populate_keys flds relations k :
  is_Some (build_populate flds relations !! k) <->
    k = "localizations" \/ is_Some (relations !! k).
Proof.
  unfold build_populate.
  rewrite lookup_union_is_Some, lookup_fmap, fmap_is_Some.
  rewrite lookup_singleton_is_Some. split; intros [?|?]; auto.
Qed.

(** C7 (as amended).  The object handed to [noLimit] asks for all locales
    and for the fields that the aggregation returns at the top level; its
    [populate] has one entry for every relation of the relation map, with
    that relation's fields, and no key but these and [localizations]; and,
    as long as no relation is itself called [localizations], its
    [localizations] entry carries the same fields and, as its own
    [populate], the same relation map. *)
Theorem getPages_fetch_spec svc strapi config contentType id q :
  getPagesQuery svc strapi config contentType id = Ok q ->
  exists meta relations,
    strapi_contentTypes strapi !! contentType = Some meta /\
    getRelationsFromConfig svc (contentTypes config !! contentType)
      = Ok relations /\
    getFieldsFromConfig svc (contentTypes config !! contentType) true
      (isLocalizedOf meta) None = Ok (q_fields q) /\
    q_locale q = "all" /\
    (forall r e, relations !! r = Some e ->
       q_populate q !! r = Some (spread_relation e)) /\
    (forall k, is_Some (q_populate q !! k) <->
       k = "localizations" \/ is_Some (relations !! k)) /\
    (relations !! "localizations" = None ->
       q_populate q !! "localizations" =
         Some {| populate_fields := q_fields q;
                 populate_populate := Some relations |}).
Proof.
  intros H.
  apply getPagesQuery_Ok in H
    as (meta & relations & Hm & Hr & Hf & _ & _ & Hl & _ & Hp).
  exists meta, relations. rewrite Hp. split_and!; try done.
  - intros r e. apply build_populate_relation.
  - intros k. apply build_populate_keys.
  - apply build_populate_localizations.
Qed.

Lemma getPages_fetch_spec_witness :
  (q_locale <$> getPagesQuery PatternSpec.service strapi_pages config_relations
                  page_uid None) = Ok "all" /\
  exists q,
    getPagesQuery PatternSpec.service strapi_pages config_relations page_uid
      None = Ok q /\
    q_populate q !! "localizations" =
      Some {| populate_fields := ["title"; "updatedAt"];
              populate_populate := Some relation_config_relations |}.
Proof.
  split; [vm_compute; reflexivity|].
  destruct (getPagesQuery PatternSpec.service strapi_pages config_relations
              page_uid None) as [q|e] eqn:Hq; [|by vm_compute in Hq].
  exists q. split; [done|].
  destruct (getPages_fetch_spec PatternSpec.service strapi_pages
              config_relations page_uid None q Hq)
    as (meta & relations & _ & Hr & Hf & _ & _ & _ & Hloc).
  assert (relations = relation_config_relations) as ->.
  { vm_compute in Hr. injection Hr as <-. vm_compute. reflexivity. }
  assert (q_fields q = ["title"; "updatedAt"]) as <-.
  { vm_compute in Hq. injection Hq as <-. reflexivity. }
  apply Hloc. vm_compute. reflexivity.
Defined.

(** C7 (as stated) fails: a pattern reaches into the relation called
    [localizations], and the relation's own entry takes the place of the
    [localizations] entry that carries the fields and the relation map. *)
Lemma getPages_localizations_replaced :
  (q_fields <$> getPagesQuery PatternSpec.service strapi_pages
                  config_localizations page_uid None)
    = Ok ["slug"; "updatedAt"] /\
  ((fun q => q_populate q !! "localizations") <$>
     getPagesQuery PatternSpec.service strapi_pages config_localizations
       page_uid None)
    = Ok (Some {| populate_fields := ["slug"]; populate_populate := None |}).
Proof. split; vm_compute; reflexivity. Qed.

(** ** Tables of the entity service *)

Section TableFacts.

Context {Row : Type}.
Implicit Types (t : gmap positive Row) (selects : Row -> bool).

Lemma elem_of_findMany selects t id r :
  (id, r) ∈ entityService.findMany selects t <->
    t !! id = Some r /\ selects r = true.
Proof.
  unfold entityService.findMany.
  rewrite list_elem_of_filter, elem_of_map_to_list. simpl. tauto.
Qed.

Lemma findMany_NoDup selects t : NoDup (entityService.findMany selects t).
Proof. apply NoDup_filter, NoDup_map_to_list. Qed.

Lemma findMany_nil selects t :
  entityService.findMany selects t = [] <->
    forall id r, t !! id = Some r -> selects r = false.
Proof.
  split.
  - intros Hnil id r Hr. destruct (selects r) eqn:Hs; [|done].
    assert ((id, r) ∈ entityService.findMany selects t) as Hin
      by by apply elem_of_findMany.
    rewrite Hnil in Hin. by apply elem_of_nil in Hin.
  - intros Hall. destruct (entityService.findMany selects t) as [|[id r] l]
      eqn:Hl; [done|].
    assert ((id, r) ∈ entityService.findMany selects t) as Hin
      by (rewrite Hl; left).
    apply elem_of_findMany in Hin as [Hr Hs].
    by rewrite (Hall _ _ Hr) in Hs.
Qed.

Lemma only_element {A} (l : list A) a :
  NoDup l -> (forall x, x ∈ l <-> x = a) -> l = [a].
Proof.
  intros Hnd Hl. destruct l as [|x l].
  - pose proof (proj2 (Hl a) eq_refl) as Hin. by apply elem_of_nil in Hin.
  - assert (x = a) as -> by (apply Hl; left).
    destruct l as [|y l]; [done|].
    assert (y = a) as -> by (apply Hl; right; left).
    apply NoDup_cons in Hnd as [Hnin _]. destruct Hnin. left.
Qed.

Lemma create_lookup data t id r :
  entityService.create data t !! id = Some r <->
    (id = fresh (dom t) /\ r = data) \/ t !! id = Some r.
Proof.
  unfold entityService.create.
  assert (t !! fresh (dom t) = None) as Hfresh
    by apply not_elem_of_dom, is_fresh.
  destruct (decide (fresh (dom t) = id)) as [<-|Hne].
  - rewrite lookup_insert_eq, Hfresh. split.
    + intros [= <-]. by left.
    + by intros [[_ ->]|?].
  - rewrite lookup_insert_ne by done. split; [by right|].
    by intros [[-> _]|?].
Qed.

(** With at most one row selected beforehand, the row written is the
    only one selected afterwards. *)
Lemma replace_row_single selects data t :
  count_rows selects t <= 1 ->
  selects data = true ->
  exists id, entityService.findMany selects (replace_row selects data t)
             = [(id, data)].
Proof.
  intros Hcount Hdata. unfold replace_row, count_rows in *.
  set (found := entityService.findMany selects t) in *.
  set (t1 := match head found with
             | Some (id, _) => entityService.delete id t
             | None => t
             end).
  assert (forall id r, t1 !! id = Some r -> selects r = false) as Hnone.
  { intros id r Hr. destruct (selects r) eqn:Hs; [|done]. exfalso.
    subst t1. destruct found as [|[id0 r0] rest] eqn:Hfound; simpl in *.
    - by rewrite (proj1 (findMany_nil selects t) Hfound _ _ Hr) in Hs.
    - destruct rest; [|simpl in Hcount; lia].
      unfold entityService.delete in Hr.
      apply lookup_delete_Some in Hr as [Hne Hr].
      assert ((id, r) ∈ entityService.findMany selects t) as Hin
        by by apply elem_of_findMany.
      fold found in Hin. rewrite Hfound in Hin.
      apply list_elem_of_singleton in Hin. congruence. }
  exists (fresh (dom t1)). apply only_element; [apply findMany_NoDup|].
  intros [id r]. rewrite elem_of_findMany, create_lookup. split.
  - intros [[[-> ->]|Hr] Hs]; [done|]. by rewrite (Hnone _ _ Hr) in Hs.
  - intros [= -> ->]. split; [by left|done].
Qed.

Lemma count_rows_insert selects t i r :
  t !! i = None ->
  count_rows selects (<[i := r]> t) =
    (if selects r then 1 else 0) + count_rows selects t.
Proof.
  intros Hi. unfold count_rows, entityService.findMany.
  rewrite map_to_list_insert by done. rewrite filter_cons. simpl.
  destruct (selects r); by case_decide.
Qed.

Lemma count_rows_delete selects t i r :
  t !! i = Some r ->
  count_rows selects t =
    (if selects r then 1 else 0) + count_rows selects (base.delete i t).
Proof.
  intros Hi. unfold count_rows, entityService.findMany.
  rewrite <-(map_to_list_delete t i r Hi) at 1. rewrite filter_cons. simpl.
  destruct (selects r); by case_decide.
Qed.

(** Delete-if-found, then create, takes one selected row away, if there is
    one, and adds one. *)
Lemma replace_row_count selects data t :
  selects data = true ->
  count_rows selects (replace_row selects data t) =
    Nat.max 1 (count_rows selects t).
Proof.
  intros Hdata. unfold replace_row, entityService.create.
  rewrite count_rows_insert by apply not_elem_of_dom, is_fresh.
  rewrite Hdata.
  destruct (entityService.findMany selects t) as [|[id r] rest] eqn:Hfound;
    simpl.
  - unfold count_rows. by rewrite Hfound.
  - assert ((id, r) ∈ entityService.findMany selects t) as Hin
      by (rewrite Hfound; left).
    apply elem_of_findMany in Hin as [Hr Hsel].
    rewrite (count_rows_delete selects t id r Hr), Hsel.
    unfold entityService.delete. lia.
Qed.

Lemma foldl_delete_lookup (ids : list positive) t i :
  foldl (fun t id => entityService.delete id t) t ids !! i =
    if decide (i ∈ ids) then None else t !! i.
Proof.
  revert t. induction ids as [|id ids IH]; intros t.
  - destruct (decide (i ∈ [])) as [Hin|_]; [by apply elem_of_nil in Hin|done].
  - change (foldl (fun t id => entityService.delete id t)
              (entityService.delete id t) ids !! i =
            if decide (i ∈ id :: ids) then None else t !! i).
    rewrite IH. unfold entityService.delete.
    destruct (decide (i ∈ ids)) as [Hin|Hnin].
    + by rewrite decide_True by by right.
    + destruct (decide (i = id)) as [->|Hne].
      * rewrite decide_True by left. apply lookup_delete_eq.
      * rewrite decide_False by (by intros [?|?]%elem_of_cons).
        by apply lookup_delete_ne.
Qed.

End TableFacts.

(** ** Sitemaps and caches *)

Lemma createSitemapCache_run sitemapJson name s :
  createSitemapCache sitemapJson name s =
    (tt, {| sitemaps := sitemaps s;
            caches := replace_row (cache_by_name name)
                        {| sitemap_json := sitemapJson; cache_name := name |}
                        (caches s) |}).
Proof.
  unfold createSitemapCache, replace_row, mbind, async_bind, cache_findMany.
  by destruct (head (entityService.findMany (cache_by_name name) (caches s)))
    as [[id r]|].
Qed.

Lemma createSitemap_run sitemapString name delta s :
  createSitemap sitemapString name delta s =
    (tt, {| sitemaps := replace_row (by_name_delta name delta)
                          {| sitemap_string := sitemapString;
                             sitemap_name := name;
                             sitemap_delta := delta |}
                          (sitemaps s);
            caches := caches s |}).
Proof.
  unfold createSitemap, replace_row, mbind, async_bind, sitemap_findMany.
  by destruct (head (entityService.findMany (by_name_delta name delta)
                       (sitemaps s))) as [[id r]|].
Qed.

Lemma delete_all_run found s :
  delete_all found s =
    (tt, {| sitemaps := foldl (fun t id => entityService.delete id t)
                          (sitemaps s) found.*1;
            caches := caches s |}).
Proof.
  revert s. induction found as [|[id r] rest IH]; intros s.
  - by destruct s.
  - simpl. unfold mbind, async_bind. simpl. by rewrite IH.
Qed.

(** Whatever the store holds, a create leaves as many rows of the name as
    there were, or one if there were none. *)
Lemma createSitemapCache_count sitemapJson name s :
  count_rows (cache_by_name name)
    (caches (exec (createSitemapCache sitemapJson name) s)) =
  Nat.max 1 (count_rows (cache_by_name name) (caches s)).
Proof.
  unfold exec. rewrite createSitemapCache_run. simpl.
  apply replace_row_count. by apply bool_decide_eq_true.
Qed.

Lemma createSitemap_count sitemapString name delta s :
  count_rows (by_name_delta name delta)
    (sitemaps (exec (createSitemap sitemapString name delta) s)) =
  Nat.max 1 (count_rows (by_name_delta name delta) (sitemaps s)).
Proof.
  unfold exec. rewrite createSitemap_run. simpl.
  apply replace_row_count. unfold by_name_delta. simpl.
  by rewrite !bool_decide_eq_true_2.
Qed.

(** C8 (as amended).  On a store that holds at most one cache row of the
    name, two calls of [createSitemapCache] with that name leave exactly
    one cache row of the name, the one written last: each call deletes the
    row it finds before it inserts.  Likewise for [createSitemap] and the
    rows of a name and delta. *)
Theorem create_twice_leaves_one name s :
  (forall sitemapJson1 sitemapJson2,
     count_rows (cache_by_name name) (caches s) <= 1 ->
     let s' := exec (createSitemapCache sitemapJson1 name;;
                     createSitemapCache sitemapJson2 name) s in
     count_rows (cache_by_name name) (caches s') = 1 /\
     (exists id, eval (getSitemapCache name) s' =
        Some (id, {| sitemap_json := sitemapJson2; cache_name := name |})) /\
     sitemaps s' = sitemaps s) /\
  (forall sitemapString1 sitemapString2 delta,
     count_rows (by_name_delta name delta) (sitemaps s) <= 1 ->
     let s' := exec (createSitemap sitemapString1 name delta;;
                     createSitemap sitemapString2 name delta) s in
     count_rows (by_name_delta name delta) (sitemaps s') = 1 /\
     (exists id, eval (getSitemap name delta) s' =
        Some (id, {| sitemap_string := sitemapString2;
                     sitemap_name := name;
                     sitemap_delta := delta |})) /\
     caches s' = caches s).
Proof.
  split.
  - intros j1 j2 Hcount.
    unfold exec, eval, getSitemapCache, cache_findMany, mbind, async_bind,
      count_rows.
    rewrite !createSitemapCache_run. simpl.
    destruct (replace_row_single (cache_by_name name)
                {| sitemap_json := j1; cache_name := name |} (caches s) Hcount)
      as [id1 H1]; [by apply bool_decide_eq_true|].
    destruct (replace_row_single (cache_by_name name)
                {| sitemap_json := j2; cache_name := name |}
                (replace_row (cache_by_name name)
                   {| sitemap_json := j1; cache_name := name |} (caches s)))
      as [id2 H2].
    { unfold count_rows. by rewrite H1. }
    { by apply bool_decide_eq_true. }
    rewrite H2. split_and!; [done| |done]. by exists id2.
  - intros x1 x2 delta Hcount.
    unfold exec, eval, getSitemap, sitemap_findMany, mbind, async_bind,
      count_rows.
    rewrite !createSitemap_run. simpl.
    assert (forall x, by_name_delta name delta
              {| sitemap_string := x; sitemap_name := name;
                 sitemap_delta := delta |} = true) as Hsel.
    { intros x. unfold by_name_delta. simpl.
      by rewrite !bool_decide_eq_true_2. }
    destruct (replace_row_single (by_name_delta name delta)
                {| sitemap_string := x1; sitemap_name := name;
                   sitemap_delta := delta |} (sitemaps s) Hcount (Hsel x1))
      as [id1 H1].
    destruct (replace_row_single (by_name_delta name delta)
                {| sitemap_string := x2; sitemap_name := name;
                   sitemap_delta := delta |}
                (replace_row (by_name_delta name delta)
                   {| sitemap_string := x1; sitemap_name := name;
                      sitemap_delta := delta |} (sitemaps s)))
      as [id2 H2].
    { unfold count_rows. by rewrite H1. }
    { apply Hsel. }
    rewrite H2. split_and!; [done| |done]. by exists id2.
Qed.

Lemma create_twice_leaves_one_witness :
  count_rows (cache_by_name "default") (caches store_sample) <= 1 /\
  count_rows (cache_by_name "default")
    (caches (exec (createSitemapCache "[1]" "default";;
                   createSitemapCache "[2]" "default") store_sample)) = 1.
Proof.
  assert (count_rows (cache_by_name "default") (caches store_sample) <= 1)
    as H by (vm_compute; lia).
  split; [exact H|].
  exact (proj1 (proj1 (create_twice_leaves_one "default" store_sample)
                  "[1]" "[2]" H)).
Defined.

(** C8 (as stated) fails: on a store that already holds two cache rows of
    the name, each call deletes one of them and inserts one, so two calls
    leave two rows of the name; likewise for two sitemap rows of one name
    and delta. *)
Lemma create_twice_leaves_two :
  count_rows (cache_by_name "default")
    (caches (exec (createSitemapCache "[1]" "default";;
                   createSitemapCache "[2]" "default") store_two_caches)) = 2 /\
  count_rows (by_name_delta "default" 0)
    (sitemaps (exec (createSitemap "<x/>" "default" 0;;
                     createSitemap "<y/>" "default" 0) store_two_sitemaps)) = 2.
Proof. split; vm_compute; reflexivity. Qed.

(** C9.  When no cache row has the name, [updateSitemapCache] returns
    normally and leaves the whole store as it was. *)
Theorem updateSitemapCache_absent sitemapJson name s :
  (forall id r, caches s !! id = Some r -> cache_name r <> name) ->
  updateSitemapCache sitemapJson name s = (tt, s).
Proof.
  intros Hnone.
  unfold updateSitemapCache, mbind, async_bind, cache_findMany.
  assert (entityService.findMany (cache_by_name name) (caches s) = []) as ->;
    [|done].
  apply findMany_nil. intros id r Hr.
  apply bool_decide_eq_false. by eapply Hnone.
Qed.

Lemma updateSitemapCache_absent_witness :
  (forall id r, caches store_sample !! id = Some r -> cache_name r <> "news") /\
  updateSitemapCache "[]" "news" store_sample = (tt, store_sample).
Proof.
  assert (forall id r, caches store_sample !! id = Some r ->
                       cache_name r <> "news") as H.
  { intros id r Hr. simpl in Hr.
    apply lookup_singleton_Some in Hr as [_ <-]. discriminate. }
  split; [exact H|].
  exact (updateSitemapCache_absent "[]" "news" store_sample H).
Defined.

Example deleteSitemap_sample :
  map_to_list (sitemaps (exec (deleteSitemap "default") store_sample))
    = [(3%positive, {| sitemap_string := "<c/>"; sitemap_name := "news";
                       sitemap_delta := 0 |})].
Proof. vm_compute. reflexivity. Qed.

(** C10.  [deleteSitemap] removes the sitemap rows of the name, whatever
    their delta, and nothing else: afterwards the table holds exactly the
    rows of other names, unchanged, no row of the name is left, and the
    caches are as they were. *)
Theorem deleteSitemap_removes_name name s :
  let s' := exec (deleteSitemap name) s in
  (forall id r, sitemaps s' !! id = Some r <->
     sitemaps s !! id = Some r /\ sitemap_name r <> name) /\
  count_rows (by_name name) (sitemaps s') = 0 /\
  caches s' = caches s.
Proof.
  unfold exec, deleteSitemap, mbind, async_bind, sitemap_findMany.
  rewrite delete_all_run. simpl.
  set (found := entityService.findMany (by_name name) (sitemaps s)).
  assert (forall id r,
            foldl (fun t id => entityService.delete id t) (sitemaps s)
              found.*1 !! id = Some r <->
            sitemaps s !! id = Some r /\ sitemap_name r <> name) as Hrows.
  { intros id r. rewrite foldl_delete_lookup.
    destruct (decide (id ∈ found.*1)) as [Hin|Hnin].
    - apply list_elem_of_fmap in Hin as ([id' r'] & -> & Hin).
      apply elem_of_findMany in Hin as [Hr' Hsel].
      apply bool_decide_eq_true in Hsel. simpl. split; [done|].
      intros [Hr Hne]. congruence.
    - split; [|tauto]. intros Hr. split; [done|]. intros Hname.
      apply Hnin, list_elem_of_fmap. exists (id, r). split; [done|].
      apply elem_of_findMany. split; [done|]. by apply bool_decide_eq_true. }
  split_and!; [done| |done].
  unfold count_rows.
  assert (entityService.findMany (by_name name)
            (foldl (fun t id => entityService.delete id t) (sitemaps s)
               found.*1) = []) as ->; [|done].
  apply findMany_nil. intros id r Hr. apply Hrows in Hr as [_ Hne].
  by apply bool_decide_eq_false.
Qed.

(** * Further properties of the query service *)

(** ** When the aggregation returns, and what it raises *)

Section AggregationErrors.

Variable svc : PatternService.

Lemma pushFields_returns entries topLevel relation acc :
  (exists fs, pushFields svc entries topLevel relation acc = Ok fs) <->
  Forall (extraction_returns svc topLevel relation) entries.
Proof.
  revert acc. induction entries as [|[lang cfg] rest IH]; intros acc; simpl.
  - split; [by constructor|]. by exists acc.
  - rewrite Forall_cons. unfold extraction_returns at 1. simpl. split.
    + intros (fs & H). apply bind_Ok in H as (l & Hl & H).
      split; [by exists l|]. apply (IH (acc ++ l)). by exists fs.
    + intros [[l Hl] Hrest]. rewrite Hl. simpl. by apply IH.
Qed.

Lemma pushFields_Err entries topLevel relation acc e :
  pushFields svc entries topLevel relation acc = Err e <->
  exists pre lang cfg post,
    entries = pre ++ (lang, cfg) :: post /\
    Forall (extraction_returns svc topLevel relation) pre /\
    getFieldsFromPattern svc (pattern cfg) topLevel relation = Err e.
Proof.
  revert acc. induction entries as [|[lang cfg] rest IH]; intros acc; simpl.
  - split; [done|]. intros (pre & ? & ? & ? & Heq & _). by destruct pre.
  - rewrite bind_Err. split.
    + intros [He|(l & Hl & H)].
      * exists [], lang, cfg, rest. split_and!; [done|constructor|done].
      * apply IH in H as (pre & lang' & cfg' & post & -> & Hpre & He).
        exists ((lang, cfg) :: pre), lang', cfg', post.
        split_and!; [done| |done]. constructor; [by exists l|done].
    + intros (pre & lang' & cfg' & post & Heq & Hpre & He).
      destruct pre as [|x pre]; simpl in Heq.
      * injection Heq as -> -> ->. by left.
      * injection Heq as <- ->. apply Forall_cons in Hpre as [[l Hl] Hpre].
        right. exists l. split; [done|]. apply IH.
        by exists pre, lang', cfg', post.
Qed.

End AggregationErrors.

(** X1.  Below the top level nothing is appended: the fields returned are
    exactly those that some language's pattern yields under the scope, so
    ["locale"] and ["updatedAt"] are among them only if a pattern yields
    them, and [isLocalized] has no effect on the result. *)
Theorem getFieldsFromConfig_below_top svc contentType isLocalized relation fs :
  getFieldsFromConfig svc contentType false isLocalized relation = Ok fs ->
  (forall f, f ∈ fs <-> pattern_yields svc contentType false relation f) /\
  (forall isLocalized',
     getFieldsFromConfig svc contentType false isLocalized' relation = Ok fs).
Proof.
  intros H. split.
  - apply getFieldsFromConfig_Ok in H as (collected & Hc & ->).
    intros f. unfold appended. by rewrite elem_of_spread_Set, app_nil_r.
  - intros il. exact H.
Qed.

Lemma getFieldsFromConfig_below_top_witness :
  getFieldsFromConfig PatternSpec.service (Some relation_config) false
    (Some true) (Some "category") = Ok ["slug"; "name"] /\
  getFieldsFromConfig PatternSpec.service (Some relation_config) false
    None (Some "category") = Ok ["slug"; "name"].
Proof.
  split; [reflexivity|].
  exact (proj2 (getFieldsFromConfig_below_top PatternSpec.service
                  (Some relation_config) (Some true) (Some "category") _
                  eq_refl) None).
Defined.

(** X2.  [getFieldsFromConfig] returns exactly when the content type is
    absent, or has a [languages] object and the pattern service returns for
    the pattern of every language; the flags [isLocalized] play no part. *)
Theorem getFieldsFromConfig_returns svc contentType topLevel isLocalized relation :
  (exists fs,
     getFieldsFromConfig svc contentType topLevel isLocalized relation = Ok fs)
  <->
  contentType = None \/
  exists ct entries,
    contentType = Some ct /\ languages ct = Some entries /\
    Forall (extraction_returns svc topLevel relation) entries.
Proof.
  unfold getFieldsFromConfig. split.
  - intros (fs & H). apply bind_Ok in H as (collected & Hc & _).
    destruct contentType as [ct|]; [|by left]. right.
    apply bind_Ok in Hc as (entries & He & Hc).
    destruct (languages ct) as [entries'|] eqn:Hl; [|done].
    injection He as ->. exists ct, entries. split_and!; [done..|].
    apply (pushFields_returns svc entries topLevel relation []). by eexists.
  - intros [->|(ct & entries & -> & Hl & Hall)]; simpl; [by eexists|].
    rewrite Hl. simpl.
    apply (pushFields_returns svc entries topLevel relation []) in Hall
      as (collected & ->).
    simpl. by eexists.
Qed.

(** X3.  When [getFieldsFromConfig] raises, it is either a [TypeError] for
    a content type object without [languages], or the error of the first
    language, in the order of the entries, whose pattern the pattern
    service rejects. *)
Theorem getFieldsFromConfig_raises svc contentType topLevel isLocalized relation e :
  getFieldsFromConfig svc contentType topLevel isLocalized relation = Err e <->
  exists ct,
    contentType = Some ct /\
    ((languages ct = None /\ e = TypeError) \/
     exists pre lang cfg post,
       languages ct = Some (pre ++ (lang, cfg) :: post) /\
       Forall (extraction_returns svc topLevel relation) pre /\
       getFieldsFromPattern svc (pattern cfg) topLevel relation = Err e).
Proof.
  unfold getFieldsFromConfig. rewrite bind_Err. split.
  - intros [H|(? & _ & [=])].
    destruct contentType as [ct|]; [|done]. exists ct. split; [done|].
    destruct (languages ct) as [entries|] eqn:Hl; simpl in H.
    + right. apply pushFields_Err in H
        as (pre & lang & cfg & post & -> & Hpre & He).
      by exists pre, lang, cfg, post.
    + left. by injection H as <-.
  - intros (ct & -> & [[Hl ->]|(pre & lang & cfg & post & Hl & Hpre & He)]);
      left; rewrite Hl; simpl; [done|].
    apply pushFields_Err. by exists pre, lang, cfg, post.
Qed.

Example getFieldsFromConfig_malformed :
  getFieldsFromConfig PatternSpec.service (Some malformed_config) true None None
    = Err PatternSyntaxError.
Proof. reflexivity. Qed.

(** X4.  At the top level, the fields of a localized type are those of a
    type that is not localized, and ["locale"]: a truthy [isLocalized]
    never makes the aggregation raise, and adds nothing else. *)
Theorem getFieldsFromConfig_localized
    svc contentType isLocalized isLocalized' relation fs :
  truthy isLocalized = false ->
  truthy isLocalized' = true ->
  getFieldsFromConfig svc contentType true isLocalized relation = Ok fs ->
  exists fs',
    getFieldsFromConfig svc contentType true isLocalized' relation = Ok fs' /\
    forall f, f ∈ fs' <-> f ∈ fs \/ f = "locale".
Proof.
  unfold getFieldsFromConfig. intros -> -> H.
  apply bind_Ok in H as (collected & -> & H). injection H as <-. simpl.
  eexists. split; [done|]. intros f.
  rewrite !elem_of_spread_Set, !elem_of_app, !list_elem_of_singleton. tauto.
Qed.

Lemma getFieldsFromConfig_localized_witness :
  getFieldsFromConfig PatternSpec.service (Some example_config) true
    None None = Ok ["title"; "titre"; "updatedAt"] /\
  exists fs',
    getFieldsFromConfig PatternSpec.service (Some example_config) true
      (Some true) None = Ok fs' /\
    forall f, f ∈ fs' <-> f ∈ ["title"; "titre"; "updatedAt"] \/ f = "locale".
Proof.
  split; [reflexivity|].
  exact (getFieldsFromConfig_localized PatternSpec.service
           (Some example_config) None (Some true) None _
           eq_refl eq_refl eq_refl).
Defined.

(** ** The keys of the relation map *)

Section RelationKeys.

Variable svc : PatternService.
Variable contentType : option ContentTypeConfig.



Lemma eachLanguage_no_relations entries m :
  Forall (fun entry => getRelationsFromPattern svc (pattern entry.2) = Ok [])
    entries ->
  eachLanguage svc contentType entries m = Ok m.
Proof.
  induction 1 as [|[lang cfg] rest Hx _ IH]; simpl; [done|].
  simpl in Hx. rewrite Hx. simpl. exact IH.
Qed.

End RelationKeys.



(** X6.  When no language's pattern holds a relation, the relation map is
    empty and the field extraction is not run at all: the result does not
    depend on whether the pattern service would return for the fields.  An
    empty [languages] object is one such case. *)
Theorem getRelationsFromConfig_no_relations svc ct entries :
  languages ct = Some entries ->
  Forall (fun entry => getRelationsFromPattern svc (pattern entry.2) = Ok [])
    entries ->
  getRelationsFromConfig svc (Some ct) = Ok ∅.
Proof.
  intros Hl Hall. unfold getRelationsFromConfig. rewrite Hl. simpl.
  by apply eachLanguage_no_relations.
Qed.

Lemma getRelationsFromConfig_no_relations_witness :
  languages shared_field_config
    = Some [ ("en", {| pattern := "/pages/[slug]" |});
             ("nl", {| pattern := "/paginas/[slug]" |}) ] /\
  getRelationsFromConfig PatternSpec.service (Some shared_field_config) = Ok ∅.
Proof.
  split; [reflexivity|].
  apply (getRelationsFromConfig_no_relations PatternSpec.service
           shared_field_config _ eq_refl).
  repeat constructor.
Defined.

(** ** More on the page query *)

(** X7.  For a content type that [strapi.contentTypes] does not know,
    [getPages] raises a [TypeError] before any pattern is read, whatever
    the configuration and the pattern service. *)
Theorem getPages_unknown_content_type svc strapi config contentType id :
  strapi_contentTypes strapi !! contentType = None ->
  getPagesQuery svc strapi config contentType id = Err TypeError.
Proof.
  intros Hnone. unfold getPagesQuery, and_then. rewrite Hnone.
  by destruct (truthy (excludeDrafts config)).
Qed.

Lemma getPages_unknown_content_type_witness :
  strapi_contentTypes strapi_pages !! "api::post.post" = None /\
  getPagesQuery PatternSpec.service strapi_pages config_pages
    "api::post.post" None = Err TypeError.
Proof.
  split; [reflexivity|].
  exact (getPages_unknown_content_type PatternSpec.service strapi_pages
           config_pages "api::post.post" None eq_refl).
Defined.

(** X8.  For a content type that Strapi knows but the sitemap
    configuration has no entry for, [getPages] does not raise: it asks for
    ["updatedAt"] (after ["locale"] if the type is localized) and populates
    only [localizations], with the same fields and no relation. *)
Theorem getPages_unconfigured svc strapi config contentType id meta :
  strapi_contentTypes strapi !! contentType = Some meta ->
  (truthy (excludeDrafts config) = true -> is_Some (options meta)) ->
  contentTypes config !! contentType = None ->
  exists q,
    getPagesQuery svc strapi config contentType id = Ok q /\
    q_fields q = (if truthy (isLocalizedOf meta)
                  then ["locale"; "updatedAt"] else ["updatedAt"]) /\
    q_populate q =
      {[ "localizations" :=
           {| populate_fields := q_fields q; populate_populate := Some ∅ |} ]}.
Proof.
  intros Hmeta Hopts Hcfg.
  rewrite (getPagesQuery_flags _ _ _ _ _ _ Hmeta Hopts), Hcfg. simpl.
  eexists. split; [done|]. simpl. split.
  - by destruct (truthy (isLocalizedOf meta)).
  - unfold build_populate. by rewrite fmap_empty, (left_id_L ∅ (∪)).
Qed.

Lemma getPages_unconfigured_witness :
  strapi_contentTypes strapi_flagless !! page_uid
    = Some {| options := Some {| draftAndPublish := None |};
              pluginOptions := Some {| i18n := None |} |} /\
  contentTypes config_empty !! page_uid = None /\
  exists q,
    getPagesQuery PatternSpec.service strapi_flagless config_empty page_uid
      None = Ok q /\
    q_fields q = ["updatedAt"].
Proof.
  split; [reflexivity|]. split; [reflexivity|].
  destruct (getPages_unconfigured PatternSpec.service strapi_flagless
              config_empty page_uid None _ eq_refl
              (fun _ => ex_intro _ _ eq_refl) eq_refl)
    as (q & Hq & Hf & _).
  exists q. split; [exact Hq|exact Hf].
Defined.

(** X9.  Whenever [getPages] gets as far as its query, the fields it asks
    for hold no value twice, hold ["updatedAt"], and hold ["locale"] when
    the content type's [pluginOptions.i18n.localized] is [true]; and the
    fields asked of each relation hold no value twice either. *)
Theorem getPages_fields svc strapi config contentType id q :
  getPagesQuery svc strapi config contentType id = Ok q ->
  NoDup (q_fields q) /\
  "updatedAt" ∈ q_fields q /\
  (forall meta,
     strapi_contentTypes strapi !! contentType = Some meta ->
     isLocalizedOf meta = Some true -> "locale" ∈ q_fields q) /\
  (forall r e, q_populate q !! r = Some e -> NoDup (populate_fields e)).
Proof.
  intros H.
  apply getPagesQuery_Ok in H
    as (meta & relations & Hm & Hr & Hf & _ & _ & _ & _ & Hp).
  pose proof Hf as Hf'.
  apply getFieldsFromConfig_Ok in Hf as (collected & _ & Hfs).
  assert (NoDup (q_fields q)) as Hnd by (rewrite Hfs; apply spread_Set_NoDup).
  split_and!.
  - done.
  - rewrite Hfs, elem_of_spread_Set. unfold appended.
    rewrite !elem_of_app, list_elem_of_singleton. tauto.
  - intros meta' Hm' Hloc. rewrite Hm in Hm'. injection Hm' as <-.
    rewrite Hfs, elem_of_spread_Set. unfold appended. rewrite Hloc. simpl.
    rewrite !elem_of_app, !elem_of_cons. tauto.
  - intros r e. rewrite Hp. unfold build_populate.
    rewrite lookup_union_Some_raw, lookup_fmap, fmap_Some.
    intros [(x & Hx & ->)|[_ [_ <-]%lookup_singleton_Some]]; [|done].
    simpl.
    destruct (contentTypes config !! contentType) as [ct|] eqn:Hct;
      simpl in Hr.
    + apply bind_Ok in Hr as (entries & He & Hr).
      destruct (eachLanguage_Ok _ _ _ _ _ _ _ Hr Hx) as [Hem|[Hsc _]].
      { by rewrite lookup_empty in Hem. }
      apply getFieldsFromConfig_Ok in Hsc as (c & _ & ->).
      apply spread_Set_NoDup.
    + injection Hr as <-. by rewrite lookup_empty in Hx.
Qed.

Lemma getPages_fields_witness :
  exists q,
    getPagesQuery PatternSpec.service strapi_pages config_relations page_uid
      None = Ok q /\
    NoDup (q_fields q).
Proof.
  eexists. split; [vm_compute; reflexivity|].
  exact (proj1 (getPages_fields PatternSpec.service strapi_pages
                  config_relations page_uid None _ eq_refl)).
Defined.

(** X10.  A page whose [sitemap_exclude] is [true] never passes the
    filters of the page query, whatever the id passed and the draft
    settings. *)
Theorem getPages_excluded_page svc strapi config contentType id q page :
  getPagesQuery svc strapi config contentType id = Ok q ->
  attribute page "sitemap_exclude" = VBool true ->
  filter_holds page (q_filters q) = false.
Proof.
  intros H Hex.
  apply getPagesQuery_Ok in H as (_ & _ & _ & _ & _ & _ & Hf & _).
  apply not_true_is_false. rewrite Hf, build_filters_holds, Hex.
  by intros [[?|?] _].
Qed.

Lemma getPages_excluded_page_witness :
  exists q,
    getPagesQuery PatternSpec.service strapi_pages config_pages page_uid
      None = Ok q /\
    attribute page_excluded "sitemap_exclude" = VBool true /\
    filter_holds page_excluded (q_filters q) = false.
Proof.
  eexists. split; [vm_compute; reflexivity|]. split; [reflexivity|].
  exact (getPages_excluded_page PatternSpec.service strapi_pages config_pages
           page_uid None _ page_excluded eq_refl eq_refl).
Defined.

(** X11.  The filters of the page query look at [sitemap_exclude], [id]
    and [published_at] only: two pages that agree on these three
    attributes pass or fail together. *)
Theorem getPages_filters_frame svc strapi config contentType id q page page' :
  getPagesQuery svc strapi config contentType id = Ok q ->
  attribute page "sitemap_exclude" = attribute page' "sitemap_exclude" ->
  attribute page "id" = attribute page' "id" ->
  attribute page "published_at" = attribute page' "published_at" ->
  filter_holds page (q_filters q) = filter_holds page' (q_filters q).
Proof.
  intros H Hex Hid Hpub.
  apply getPagesQuery_Ok in H as (_ & _ & _ & _ & _ & _ & Hf & _).
  apply eq_true_iff_eq. rewrite Hf, !build_filters_holds.
  by rewrite Hex, Hid, Hpub.
Qed.

Lemma getPages_filters_frame_witness :
  exists q,
    getPagesQuery PatternSpec.service strapi_pages config_pages page_uid
      (Some 7%Z) = Ok q /\
    filter_holds page_seven (q_filters q)
      = filter_holds (<["title" := VStr "Home"]> page_seven) (q_filters q).
Proof.
  eexists. split; [vm_compute; reflexivity|].
  refine (getPages_filters_frame PatternSpec.service strapi_pages config_pages
            page_uid (Some 7%Z) _ page_seven
            (<["title" := VStr "Home"]> page_seven) eq_refl _ _ _);
    vm_compute; reflexivity.
Defined.

(** ** More on the tables *)

Section TableUpdates.

Context {Row : Type}.
Implicit Types (t : gmap positive Row) (selects : Row -> bool).

(** Delete-if-found, then create, leaves the rows alone that the filter
    does not select. *)
Lemma replace_row_other selects data t id r :
  selects data = true ->
  selects r = false ->
  replace_row selects data t !! id = Some r <-> t !! id = Some r.
Proof.
  intros Hdata Hr. unfold replace_row. rewrite create_lookup.
  destruct (entityService.findMany selects t) as [|[id0 r0] rest] eqn:Hfound;
    simpl.
  - split; [|by right]. intros [[_ ->]|?]; [congruence|done].
  - assert ((id0, r0) ∈ entityService.findMany selects t) as Hin
      by (rewrite Hfound; left).
    apply elem_of_findMany in Hin as [Hr0 Hsel0].
    unfold entityService.delete. rewrite lookup_delete_Some. split.
    + intros [[_ ->]|[_ ?]]; [congruence|done].
    + intros Hid. right. split; [|done]. intros <-. congruence.
Qed.

Lemma findMany_head_Some selects t id r :
  head (entityService.findMany selects t) = Some (id, r) ->
  t !! id = Some r /\ selects r = true.
Proof.
  intros Hhead. apply elem_of_findMany.
  destruct (entityService.findMany selects t) as [|x l]; [done|].
  injection Hhead as ->. left.
Qed.

Lemma findMany_head_None selects t :
  head (entityService.findMany selects t) = None <->
    forall id r, t !! id = Some r -> selects r = false.
Proof.
  rewrite <-findMany_nil.
  by destruct (entityService.findMany selects t).
Qed.

Lemma update_insert id data t r :
  t !! id = Some r ->
  entityService.update id data t = <[id := data]> (base.delete id t).
Proof.
  intros Hr. unfold entityService.update. apply map_eq. intros i.
  destruct (decide (id = i)) as [->|Hne].
  - by rewrite lookup_alter_eq, Hr, lookup_insert_eq.
  - by rewrite lookup_alter_ne, lookup_insert_ne, lookup_delete_ne.
Qed.

(** Writing a row over one that any filter of interest treats alike keeps
    every count. *)
Lemma count_rows_update selects id data t r :
  t !! id = Some r ->
  selects data = selects r ->
  count_rows selects (entityService.update id data t) = count_rows selects t.
Proof.
  intros Hr Hsel. rewrite (update_insert _ _ _ _ Hr).
  rewrite count_rows_insert by apply lookup_delete_eq.
  by rewrite (count_rows_delete selects t id r Hr), Hsel.
Qed.

(** With one row selected, and that row overwritten by one that is
    selected too, the row written is the only one selected. *)
Lemma update_single selects id data t r :
  entityService.findMany selects t = [(id, r)] ->
  selects data = true ->
  entityService.findMany selects (entityService.update id data t)
    = [(id, data)].
Proof.
  intros Hfound Hdata.
  assert ((id, r) ∈ entityService.findMany selects t) as Hin
    by (rewrite Hfound; left).
  apply elem_of_findMany in Hin as [Hr Hsel].
  apply only_element; [apply findMany_NoDup|].
  intros [i x]. rewrite elem_of_findMany. unfold entityService.update. split.
  - intros [Hx Hs]. destruct (decide (id = i)) as [<-|Hne].
    + rewrite lookup_alter_eq, Hr in Hx. simpl in Hx. congruence.
    + rewrite lookup_alter_ne in Hx by done.
      assert ((i, x) ∈ entityService.findMany selects t) as Hin
        by by apply elem_of_findMany.
      rewrite Hfound in Hin. apply list_elem_of_singleton in Hin. congruence.
  - intros [= -> ->]. by rewrite lookup_alter_eq, Hr.
Qed.

Lemma count_rows_le_1 selects t x :
  count_rows selects t <= 1 ->
  head (entityService.findMany selects t) = Some x ->
  entityService.findMany selects t = [x].
Proof.
  unfold count_rows.
  destruct (entityService.findMany selects t) as [|y [|z l]]; simpl;
    [done| |lia].
  by intros _ [= ->].
Qed.

End TableUpdates.

Lemma replace_row_count_other {Row} (selects selects' : Row -> bool) data
    (t : gmap positive Row) :
  selects' data = false ->
  (forall r, selects r = true -> selects' r = false) ->
  count_rows selects' (replace_row selects data t) = count_rows selects' t.
Proof.
  intros Hdata Hdisj. unfold replace_row, entityService.create.
  rewrite count_rows_insert by apply not_elem_of_dom, is_fresh.
  rewrite Hdata. simpl.
  destruct (entityService.findMany selects t) as [|[id r] rest] eqn:Hfound;
    simpl; [done|].
  assert ((id, r) ∈ entityService.findMany selects t) as Hin
    by (rewrite Hfound; left).
  apply elem_of_findMany in Hin as [Hr Hsel].
  rewrite (count_rows_delete selects' t id r Hr), (Hdisj _ Hsel).
  by unfold entityService.delete.
Qed.

(** ** More on sitemaps and caches *)

Lemma updateSitemapCache_run sitemapJson name s :
  updateSitemapCache sitemapJson name s =
    (tt, {| sitemaps := sitemaps s;
            caches :=
              match head (entityService.findMany (cache_by_name name)
                            (caches s)) with
              | Some (id, _) =>
                  entityService.update id
                    {| sitemap_json := sitemapJson; cache_name := name |}
                    (caches s)
              | None => caches s
              end |}).
Proof.
  unfold updateSitemapCache, mbind, async_bind, cache_findMany.
  destruct (head (entityService.findMany (cache_by_name name) (caches s)))
    as [[id r]|]; [done|]. by destruct s.
Qed.

Lemma deleteSitemap_run name s :
  deleteSitemap name s =
    (tt, {| sitemaps :=
              foldl (fun t id => entityService.delete id t) (sitemaps s)
                (entityService.findMany (by_name name) (sitemaps s)).*1;
            caches := caches s |}).
Proof.
  unfold deleteSitemap, mbind, async_bind, sitemap_findMany.
  apply delete_all_run.
Qed.

Lemma deleteSitemap_lookup name s id r :
  sitemaps (exec (deleteSitemap name) s) !! id = Some r <->
    sitemaps s !! id = Some r /\ sitemap_name r <> name.
Proof.
  unfold exec. rewrite deleteSitemap_run. simpl. rewrite foldl_delete_lookup.
  set (found := entityService.findMany (by_name name) (sitemaps s)).
  destruct (decide (id ∈ found.*1)) as [Hin|Hnin].
  - apply list_elem_of_fmap in Hin as ([id' r'] & -> & Hin).
    apply elem_of_findMany in Hin as [Hr' Hsel].
    apply bool_decide_eq_true in Hsel. simpl. split; [done|].
    intros [Hr Hne]. congruence.
  - split; [|tauto]. intros Hr. split; [done|]. intros Hname.
    apply Hnin, list_elem_of_fmap. exists (id, r). split; [done|].
    apply elem_of_findMany. split; [done|]. by apply bool_decide_eq_true.
Qed.

Lemma by_name_delta_true name delta r :
  by_name_delta name delta r = true <->
    sitemap_name r = name /\ sitemap_delta r = delta.
Proof.
  unfold by_name_delta. by rewrite andb_true_iff, !bool_decide_eq_true.
Qed.

Lemma by_name_delta_false name delta r :
  by_name_delta name delta r = false <->
    ~ (sitemap_name r = name /\ sitemap_delta r = delta).
Proof. by rewrite <-by_name_delta_true, not_true_iff_false. Qed.

(** X12.  What is created is what is read back: on a store with at most
    one row of the key, [getSitemapCache] after [createSitemapCache]
    returns the row just written, and so does [getSitemap] after
    [createSitemap]. *)
Theorem create_then_get name s :
  (forall sitemapJson,
     count_rows (cache_by_name name) (caches s) <= 1 ->
     exists id,
       eval (getSitemapCache name)
         (exec (createSitemapCache sitemapJson name) s) =
       Some (id, {| sitemap_json := sitemapJson; cache_name := name |})) /\
  (forall sitemapString delta,
     count_rows (by_name_delta name delta) (sitemaps s) <= 1 ->
     exists id,
       eval (getSitemap name delta)
         (exec (createSitemap sitemapString name delta) s) =
       Some (id, {| sitemap_string := sitemapString;
                    sitemap_name := name;
                    sitemap_delta := delta |})).
Proof.
  split.
  - intros j Hcount.
    unfold exec, eval, getSitemapCache, cache_findMany, mbind, async_bind.
    rewrite createSitemapCache_run. simpl.
    destruct (replace_row_single (cache_by_name name)
                {| sitemap_json := j; cache_name := name |} (caches s) Hcount)
      as [id Hid]; [by apply bool_decide_eq_true|].
    exists id. by rewrite Hid.
  - intros x delta Hcount.
    unfold exec, eval, getSitemap, sitemap_findMany, mbind, async_bind.
    rewrite createSitemap_run. simpl.
    destruct (replace_row_single (by_name_delta name delta)
                {| sitemap_string := x; sitemap_name := name;
                   sitemap_delta := delta |} (sitemaps s) Hcount)
      as [id Hid]; [by apply by_name_delta_true|].
    exists id. by rewrite Hid.
Qed.

Lemma create_then_get_witness :
  count_rows (by_name_delta "default" 1) (sitemaps store_sample) <= 1 /\
  exists id,
    eval (getSitemap "default" 1)
      (exec (createSitemap "<new/>" "default" 1) store_sample) =
    Some (id, {| sitemap_string := "<new/>"; sitemap_name := "default";
                 sitemap_delta := 1 |}).
Proof.
  assert (count_rows (by_name_delta "default" 1) (sitemaps store_sample) <= 1)
    as H by (vm_compute; lia).
  split; [exact H|].
  exact (proj2 (create_then_get "default" store_sample) "<new/>" 1%Z H).
Defined.

(** X13.  [createSitemapCache] touches the cache rows of its name only:
    on any store, the sitemap table and every cache row of another name are
    as they were, and no row of another name appears. *)
Theorem createSitemapCache_frame sitemapJson name s :
  let s' := exec (createSitemapCache sitemapJson name) s in
  sitemaps s' = sitemaps s /\
  (forall id r, cache_name r <> name ->
     (caches s' !! id = Some r <-> caches s !! id = Some r)) /\
  (forall other, other <> name ->
     count_rows (cache_by_name other) (caches s') =
     count_rows (cache_by_name other) (caches s)).
Proof.
  unfold exec. rewrite createSitemapCache_run. simpl. split_and!.
  - done.
  - intros id r Hne. apply replace_row_other.
    + by apply bool_decide_eq_true.
    + by apply bool_decide_eq_false.
  - intros other Hne. apply replace_row_count_other.
    + apply bool_decide_eq_false. simpl. congruence.
    + intros r Hr%bool_decide_eq_true. apply bool_decide_eq_false. congruence.
Qed.

(** X14.  [createSitemap] touches the sitemap rows of its name and delta
    only: on any store, the cache table and every sitemap row of another
    name or another delta are as they were. *)
Theorem createSitemap_frame sitemapString name delta s :
  let s' := exec (createSitemap sitemapString name delta) s in
  caches s' = caches s /\
  (forall id r, ~ (sitemap_name r = name /\ sitemap_delta r = delta) ->
     (sitemaps s' !! id = Some r <-> sitemaps s !! id = Some r)) /\
  (forall name' delta', ~ (name' = name /\ delta' = delta) ->
     count_rows (by_name_delta name' delta') (sitemaps s') =
     count_rows (by_name_delta name' delta') (sitemaps s)).
Proof.
  unfold exec. rewrite createSitemap_run. simpl. split_and!.
  - done.
  - intros id r Hne. apply replace_row_other.
    + by apply by_name_delta_true.
    + by apply by_name_delta_false.
  - intros name' delta' Hne. apply replace_row_count_other.
    + apply by_name_delta_false. simpl. intros [<- <-]. by apply Hne.
    + intros r [<- <-]%by_name_delta_true. apply by_name_delta_false.
      intros [<- <-]. by apply Hne.
Qed.

(** X15.  On any store, a create leaves as many rows of its key as there
    were, or one if there were none: it never adds a second row to a key
    that has one, and never removes more than it adds. *)
Theorem create_count name s :
  (forall sitemapJson,
     count_rows (cache_by_name name)
       (caches (exec (createSitemapCache sitemapJson name) s)) =
     Nat.max 1 (count_rows (cache_by_name name) (caches s))) /\
  (forall sitemapString delta,
     count_rows (by_name_delta name delta)
       (sitemaps (exec (createSitemap sitemapString name delta) s)) =
     Nat.max 1 (count_rows (by_name_delta name delta) (sitemaps s))).
Proof.
  split.
  - intros j. unfold exec. rewrite createSitemapCache_run. simpl.
    apply replace_row_count. by apply bool_decide_eq_true.
  - intros x delta. unfold exec. rewrite createSitemap_run. simpl.
    apply replace_row_count. by apply by_name_delta_true.
Qed.

(** X16.  [updateSitemapCache] never adds or removes a row: on any store
    the sitemap table is as it was, the cache table has the same row ids,
    every cache row of another name is as it was, and every name has as
    many cache rows as before. *)
Theorem updateSitemapCache_keeps_rows sitemapJson name s :
  let s' := exec (updateSitemapCache sitemapJson name) s in
  sitemaps s' = sitemaps s /\
  dom (caches s') = dom (caches s) /\
  (forall id r, cache_name r <> name ->
     (caches s' !! id = Some r <-> caches s !! id = Some r)) /\
  (forall n, count_rows (cache_by_name n) (caches s') =
             count_rows (cache_by_name n) (caches s)).
Proof.
  unfold exec. rewrite updateSitemapCache_run. simpl.
  destruct (head (entityService.findMany (cache_by_name name) (caches s)))
    as [[id0 r0]|] eqn:Hhead; [|done].
  apply findMany_head_Some in Hhead as [Hr0 Hsel0].
  apply bool_decide_eq_true in Hsel0. split_and!.
  - done.
  - unfold entityService.update. apply dom_alter_L.
  - intros id r Hne. unfold entityService.update.
    destruct (decide (id0 = id)) as [<-|Hid].
    + rewrite lookup_alter_eq, Hr0. simpl. split; intros [= <-]; by destruct Hne.
    + by rewrite lookup_alter_ne.
  - intros n. apply (count_rows_update _ _ _ _ r0); [done|].
    unfold cache_by_name. simpl. by rewrite Hsel0.
Qed.

(** X17.  When the name has exactly one cache row, [updateSitemapCache]
    rewrites that row in place: [getSitemapCache] then returns the new JSON
    under the same row id. *)
Theorem updateSitemapCache_then_get sitemapJson name s id r :
  count_rows (cache_by_name name) (caches s) <= 1 ->
  eval (getSitemapCache name) s = Some (id, r) ->
  eval (getSitemapCache name) (exec (updateSitemapCache sitemapJson name) s) =
    Some (id, {| sitemap_json := sitemapJson; cache_name := name |}).
Proof.
  unfold exec, eval, getSitemapCache, cache_findMany, mbind, async_bind.
  simpl. intros Hcount Hget.
  rewrite updateSitemapCache_run. simpl. unfold mret, async_ret in *.
  simpl in *. rewrite Hget.
  pose proof (count_rows_le_1 _ _ _ Hcount Hget) as Hfound.
  rewrite (update_single _ _ _ _ _ Hfound); [done|].
  by apply bool_decide_eq_true.
Qed.

Lemma updateSitemapCache_then_get_witness :
  count_rows (cache_by_name "default") (caches store_sample) <= 1 /\
  eval (getSitemapCache "default") store_sample =
    Some (1%positive, {| sitemap_json := "{}"; cache_name := "default" |}) /\
  eval (getSitemapCache "default")
    (exec (updateSitemapCache "[1]" "default") store_sample) =
    Some (1%positive, {| sitemap_json := "[1]"; cache_name := "default" |}).
Proof.
  assert (count_rows (cache_by_name "default") (caches store_sample) <= 1)
    as H by (vm_compute; lia).
  split; [exact H|]. split; [vm_compute; reflexivity|].
  refine (updateSitemapCache_then_get "[1]" "default" store_sample 1%positive
            {| sitemap_json := "{}"; cache_name := "default" |} H _).
  vm_compute; reflexivity.
Defined.

(** X18.  [getSitemap] leaves the store as it is; the row it returns is a
    row of the table with the name and delta asked for; and it returns
    nothing exactly when the table has no such row. *)
Theorem getSitemap_found name delta s :
  exec (getSitemap name delta) s = s /\
  (forall id r, eval (getSitemap name delta) s = Some (id, r) ->
     sitemaps s !! id = Some r /\
     sitemap_name r = name /\ sitemap_delta r = delta) /\
  (eval (getSitemap name delta) s = None <->
     forall id r, sitemaps s !! id = Some r ->
       ~ (sitemap_name r = name /\ sitemap_delta r = delta)).
Proof.
  unfold exec, eval, getSitemap, sitemap_findMany, mbind, async_bind. simpl.
  split_and!.
  - done.
  - intros id r [Hr Hsel]%findMany_head_Some.
    by apply by_name_delta_true in Hsel.
  - rewrite findMany_head_None.
    split; intros H id r Hr; by apply by_name_delta_false, (H id).
Qed.

(** X19.  [getSitemapCache] leaves the store as it is; the row it returns
    is a cache row of the name asked for; and it returns nothing exactly
    when no cache row has that name. *)
Theorem getSitemapCache_found name s :
  exec (getSitemapCache name) s = s /\
  (forall id r, eval (getSitemapCache name) s = Some (id, r) ->
     caches s !! id = Some r /\ cache_name r = name) /\
  (eval (getSitemapCache name) s = None <->
     forall id r, caches s !! id = Some r -> cache_name r <> name).
Proof.
  unfold exec, eval, getSitemapCache, cache_findMany, mbind, async_bind. simpl.
  split_and!.
  - done.
  - intros id r [Hr Hsel]%findMany_head_Some.
    by apply bool_decide_eq_true in Hsel.
  - rewrite findMany_head_None.
    split; intros H id r Hr.
    + by apply (bool_decide_eq_false (cache_name r = name)), (H id).
    + by apply bool_decide_eq_false, (H id).
Qed.

(** X20.  After [deleteSitemap], [getSitemap] finds nothing under the
    name, whatever the delta. *)
Theorem deleteSitemap_then_get name delta s :
  eval (getSitemap name delta) (exec (deleteSitemap name) s) = None.
Proof.
  unfold eval, getSitemap, sitemap_findMany, mbind, async_bind. simpl.
  apply findMany_head_None. intros id r Hr.
  apply deleteSitemap_lookup in Hr as [_ Hne].
  apply by_name_delta_false. by intros [? _].
Qed.

(** X21.  Deleting a sitemap and creating one part of it anew leaves
    exactly that part under the name: one row of the name, which
    [getSitemap] returns, whatever the store held before. *)
Theorem deleteSitemap_then_create sitemapString name delta s :
  let s' := exec (deleteSitemap name;;
                  createSitemap sitemapString name delta) s in
  count_rows (by_name name) (sitemaps s') = 1 /\
  exists id,
    eval (getSitemap name delta) s' =
      Some (id, {| sitemap_string := sitemapString;
                   sitemap_name := name;
                   sitemap_delta := delta |}).
Proof.
  set (s1 := exec (deleteSitemap name) s).
  assert (forall id r, sitemaps s1 !! id = Some r -> sitemap_name r <> name)
    as Hnone by (intros id r Hr; by apply deleteSitemap_lookup in Hr as [_ ?]).
  assert (exec (deleteSitemap name;;
                createSitemap sitemapString name delta) s =
          exec (createSitemap sitemapString name delta) s1) as ->.
  { unfold s1. unfold exec, mbind, async_bind.
    by destruct (deleteSitemap name s). }
  assert (entityService.findMany (by_name_delta name delta) (sitemaps s1) = [])
    as Hfound.
  { apply findMany_nil. intros id r Hr. apply by_name_delta_false.
    intros [? _]. by eapply Hnone. }
  unfold exec, eval, getSitemap, sitemap_findMany, mbind, async_bind.
  rewrite createSitemap_run. simpl. split.
  - unfold replace_row. rewrite Hfound. simpl. unfold entityService.create.
    rewrite count_rows_insert by apply not_elem_of_dom, is_fresh.
    unfold by_name at 1. simpl. rewrite bool_decide_eq_true_2 by done.
    assert (count_rows (by_name name) (sitemaps s1) = 0) as ->; [|done].
    unfold count_rows.
    assert (entityService.findMany (by_name name) (sitemaps s1) = []) as ->;
      [|done].
    apply findMany_nil. intros id r Hr. apply bool_decide_eq_false.
    by eapply Hnone.
  - destruct (replace_row_single (by_name_delta name delta)
                {| sitemap_string := sitemapString; sitemap_name := name;
                   sitemap_delta := delta |} (sitemaps s1))
      as [id Hid].
    + unfold count_rows. rewrite Hfound. simpl. lia.
    + by apply by_name_delta_true.
    + exists id. by rewrite Hid.
Qed.

(** X22.  When no sitemap row has the name, [deleteSitemap] returns with
    the store as it was. *)
Theorem deleteSitemap_absent name s :
  (forall id r, sitemaps s !! id = Some r -> sitemap_name r <> name) ->
  deleteSitemap name s = (tt, s).
Proof.
  intros Hnone. rewrite deleteSitemap_run.
  assert (entityService.findMany (by_name name) (sitemaps s) = []) as ->.
  { apply findMany_nil. intros id r Hr. apply bool_decide_eq_false.
    by eapply Hnone. }
  by destruct s.
Qed.

Lemma deleteSitemap_absent_witness :
  (forall id r, sitemaps store_two_caches !! id = Some r ->
                sitemap_name r <> "default") /\
  deleteSitemap "default" store_two_caches = (tt, store_two_caches).
Proof.
  assert (forall id r, sitemaps store_two_caches !! id = Some r ->
                       sitemap_name r <> "default") as H.
  { intros id r Hr. simpl in Hr. by rewrite lookup_empty in Hr. }
  split; [exact H|].
  exact (deleteSitemap_absent "default" store_two_caches H).
Defined.

(** X23.  Deleting a sitemap twice is deleting it once. *)
Theorem deleteSitemap_idempotent name s :
  exec (deleteSitemap name;; deleteSitemap name) s =
  exec (deleteSitemap name) s.
Proof.
  set (s1 := exec (deleteSitemap name) s).
  assert (exec (deleteSitemap name;; deleteSitemap name) s =
          exec (deleteSitemap name) s1) as ->.
  { unfold s1. unfold exec, mbind, async_bind.
    by destruct (deleteSitemap name s). }
  unfold exec at 1. rewrite deleteSitemap_run.
  assert (entityService.findMany (by_name name) (sitemaps s1) = []) as ->.
  { apply findMany_nil. intros id r Hr. apply bool_decide_eq_false.
    by apply deleteSitemap_lookup in Hr as [_ ?]. }
  simpl. by destruct s1.
Qed.

(** ** When the relation map and the page query are returned *)

Section RelationReturns.

Variable svc : PatternService.
Variable ct : ContentTypeConfig.
Variable all : list (string * LanguageConfig).
Hypothesis Hlanguages : languages ct = Some all.

Lemma assignRelations_returns relations m :
  (forall r, r ∈ relations ->
     Forall (extraction_returns svc false (Some r)) all) ->
  exists m', assignRelations svc (Some ct) relations m = Ok m'.
Proof.
  revert m. induction relations as [|r rest IH]; intros m Hall; simpl.
  - by exists m.
  - assert (exists fs, getFieldsFromConfig svc (Some ct) false (Some false)
                         (Some r) = Ok fs) as [fs ->].
    { unfold getFieldsFromConfig. simpl. rewrite Hlanguages. simpl.
      destruct (proj2 (pushFields_returns svc all false (Some r) []))
        as [c ->]; [apply Hall; left|]. simpl. by eexists. }
    simpl. apply IH. intros r' Hr'. apply Hall. by right.
Qed.

Lemma eachLanguage_returns entries m :
  Forall (fun entry =>
            exists rs,
              getRelationsFromPattern svc (pattern entry.2) = Ok rs /\
              forall r, r ∈ rs ->
                Forall (extraction_returns svc false (Some r)) all) entries ->
  exists m', eachLanguage svc (Some ct) entries m = Ok m'.
Proof.
  intros Hall. revert m.
  induction Hall as [|[lang cfg] rest (rs & Hrs & Hfields) _ IH]; intros m;
    simpl.
  - by exists m.
  - simpl in Hrs. rewrite Hrs. simpl.
    destruct (assignRelations_returns rs m Hfields) as [m1 ->]. simpl.
    apply IH.
Qed.

End RelationReturns.

(** X24.  [getRelationsFromConfig] returns whenever the pattern service
    returns the relations of every language's pattern and, for each
    relation found, the fields of every language's pattern scoped to it. *)
Theorem getRelationsFromConfig_returns svc ct entries :
  languages ct = Some entries ->
  Forall (fun entry =>
            exists rs,
              getRelationsFromPattern svc (pattern entry.2) = Ok rs /\
              forall r, r ∈ rs ->
                Forall (extraction_returns svc false (Some r)) entries)
    entries ->
  exists relations, getRelationsFromConfig svc (Some ct) = Ok relations.
Proof.
  intros Hl Hall. unfold getRelationsFromConfig. rewrite Hl. simpl.
  by apply (eachLanguage_returns svc ct entries Hl).
Qed.

(** X25.  [getPages] gets as far as calling [noLimit] exactly when Strapi
    knows the content type, its metadata has an [options] object if draft
    exclusion is configured, and both aggregations over the content type's
    configuration return. *)
Theorem getPages_returns svc strapi config contentType id :
  (exists q, getPagesQuery svc strapi config contentType id = Ok q) <->
  exists meta,
    strapi_contentTypes strapi !! contentType = Some meta /\
    (truthy (excludeDrafts config) = true -> is_Some (options meta)) /\
    (exists relations,
       getRelationsFromConfig svc (contentTypes config !! contentType)
         = Ok relations) /\
    (exists fs,
       getFieldsFromConfig svc (contentTypes config !! contentType) true
         (isLocalizedOf meta) None = Ok fs).
Proof.
  split.
  - intros [q H]. unfold getPagesQuery in H.
    apply bind_Ok in H as (exd & Hexd & H).
    apply bind_Ok in H as (loc & Hloc & H).
    apply bind_Ok in H as (relations & Hrel & H).
    apply bind_Ok in H as (fs & Hfs & _).
    apply bind_Ok in Hloc as (meta & Hmeta & Hloc). injection Hloc as <-.
    destruct (strapi_contentTypes strapi !! contentType) as [meta'|] eqn:Hm;
      [|done].
    injection Hmeta as ->. exists meta. split_and!; [done| |by eexists..].
    intros Hx. unfold and_then in Hexd. rewrite Hx in Hexd. simpl in Hexd.
    by destruct (options meta).
  - intros (meta & Hmeta & Hopts & [relations Hrel] & [fs Hfs]).
    rewrite (getPagesQuery_flags _ _ _ _ _ _ Hmeta Hopts), Hrel. simpl.
    rewrite <-getFieldsFromConfig_truthy, Hfs. simpl. by eexists.
Qed.

Lemma getRelationsFromConfig_returns_witness :
  languages relation_config
    = Some [ ("en", {| pattern := "/posts/[category.slug]/[title]" |});
             ("fr", {| pattern := "/articles/[category.name]/[author.name]" |}) ] /\
  exists relations,
    getRelationsFromConfig PatternSpec.service (Some relation_config)
      = Ok relations.
Proof.
  split; [reflexivity|].
  apply (getRelationsFromConfig_returns PatternSpec.service relation_config _
           eq_refl).
  apply Forall_cons_2; [|apply Forall_cons_2; [|apply Forall_nil_2]].
  - exists ["category"]. split; [reflexivity|].
    intros r ->%list_elem_of_singleton.
    repeat apply Forall_cons_2; try apply Forall_nil_2;
      eexists; reflexivity.
  - exists ["category"; "author"]. split; [reflexivity|].
    intros r [->| ->%list_elem_of_singleton]%elem_of_cons;
      repeat apply Forall_cons_2; try apply Forall_nil_2;
      eexists; reflexivity.
Defined.
